(** * focus4: entity field helpers and the AutoForm lifecycle

    A shallow embedding of
    - the field helpers ([displayFor], [fieldFor], [selectFor], [stringFor])
      in their two revisions: the helper file with [displayFor] and the
      later [entity/field/utils.tsx];
    - the abstract [AutoForm] React component in its two revisions: the
      earlier one that keeps [isEdit], [errors] and [fields] on the form, and
      the later one that keeps the edit flag on the form node and registers
      every displayed form in the static [editingMap].

    JavaScript objects used as dictionaries are [gmap string _]; shared
    mutable objects (the domain of a field) live in an explicit store and are
    referred to by name; [async] methods are trees that stop at their [await]
    and are resumed with the outcome of the awaited promise and with the state
    the form has at that moment.

    Where the two revisions of a file differ, a property is stated on the
    revision whose members it speaks of, and what the other revision does
    is proved next to it. *)

From stdpp Require Import gmap strings list fin_maps pretty.

Local Open Scope string_scope.

(** ** JavaScript values *)

Module Js.

(** The primitive values a field, a code or a label can hold.  Numbers are
    the integers, together with [NaN] (the one number [===] does not relate
    to itself). *)
Inductive value : Type :=
| Undefined
| Null
| Bool (b : bool)
| Num (n : Z)
| NaN
| Str (s : string).

#[global] Instance value_eq_dec : EqDecision value.
Proof. solve_decision. Defined.

(** [ToBoolean]. *)
Definition truthy (v : value) : bool :=
  match v with
  | Undefined | Null | NaN => false
  | Bool b => b
  | Num n => negb (n =? 0)%Z
  | Str s => negb (String.eqb s "")
  end.

(** [a === b] on primitives. *)
Definition strict_eq (a b : value) : bool :=
  match a, b with
  | Undefined, Undefined => true
  | Null, Null => true
  | Bool x, Bool y => Bool.eqb x y
  | Num x, Num y => (x =? y)%Z
  | Str x, Str y => String.eqb x y
  | _, _ => false
  end.

(** [a || b]. *)
Definition or (a b : value) : value := if truthy a then a else b.

(** A plain object whose properties hold primitives. *)
Abbreviation object := (gmap string value).

(** [o[k]]: a property that is absent reads as [undefined]. *)
Definition get (o : object) (k : string) : value := default Undefined (o !! k).

(** [Array.prototype.find]. *)
Fixpoint find {A : Type} (p : A -> bool) (l : list A) : option A :=
  match l with
  | [] => None
  | x :: r => if p x then Some x else find p r
  end.

End Js.

(** ** Entity metadata ([entity/types.ts]) *)

(** A React component, as far as the helpers tell them apart. *)
Inductive ReactComponent : Type :=
| Select
| Component (name : string).

(** [DomainNoDefault]: every member is optional. *)
Record Domain : Type := {
  className : option string;
  displayFormatter : option (Js.value -> string);
  inputFormatter : option (Js.value -> string);
  unformatter : option (string -> Js.value);
  validator : option (list (Js.value -> option string));
  DisplayComponent : option ReactComponent;
  displayProps : option Js.object;
  InputComponent : option ReactComponent;
  inputProps : option Js.object;
  LabelComponent : option ReactComponent;
  labelProps : option Js.object
}.

(** The domain objects of the application.  A field entry refers to its
    domain by name, so that two entries of the same domain share one object,
    as the references of the source do. *)
Abbreviation Domains := (gmap string Domain).

(** [FieldEntry], with [domain] a reference into [Domains]. *)
Record FieldEntry : Type := {
  domain : string;
  isRequired : bool;
  name : string;
  translationKey : string
}.

(** [EntityField]. *)
Record EntityField : Type := {
  field_entry : FieldEntry;   (* $field *)
  value : Js.value
}.

(** [domain.InputComponent = c] on a domain object. *)
Definition set_InputComponent (c : ReactComponent) (d : Domain) : Domain :=
  {| className := className d;
     displayFormatter := displayFormatter d;
     inputFormatter := inputFormatter d;
     unformatter := unformatter d;
     validator := validator d;
     DisplayComponent := DisplayComponent d;
     displayProps := displayProps d;
     InputComponent := Some c;
     inputProps := inputProps d;
     LabelComponent := LabelComponent d;
     labelProps := labelProps d |}.

(** ** Field options and the rendered element *)

(** An [onChange] handler: one supplied by the caller, or the action the
    helper builds, [value => field.value = value], for the named field. *)
Inductive Handler : Type :=
| UserHandler (tag : string)
| AssignValue (field_name : string).

(** The members of [FieldOptions] the helpers read or write. *)
Record FieldOptions : Type := {
  onChange : option Handler;
  isEdit : option bool;
  innerRef : bool;                        (* a ref is set *)
  values : option (list Js.object);
  SelectComponent : option ReactComponent;
  valueKey : option string;
  labelKey : option string
}.

Definition no_options : FieldOptions :=
  {| onChange := None; isEdit := None; innerRef := false; values := None;
     SelectComponent := None; valueKey := None; labelKey := None |}.

(** [<Field field={field} {...options} />]. *)
Record Element : Type := {
  el_field : EntityField;
  el_props : FieldOptions
}.

(** What a helper leaves behind: the domain objects, the caller's options
    object (the helpers write into it) and the element returned. *)
Record Rendered : Type := {
  domains_after : Domains;
  options_after : FieldOptions;
  element : Element
}.

Definition with_onChange (h : Handler) (o : FieldOptions) : FieldOptions :=
  {| onChange := Some h; isEdit := isEdit o; innerRef := innerRef o;
     values := values o; SelectComponent := SelectComponent o;
     valueKey := valueKey o; labelKey := labelKey o |}.

Definition with_isEdit (b : bool) (o : FieldOptions) : FieldOptions :=
  {| onChange := onChange o; isEdit := Some b; innerRef := innerRef o;
     values := values o; SelectComponent := SelectComponent o;
     valueKey := valueKey o; labelKey := labelKey o |}.

Definition with_values (vs : list Js.object) (o : FieldOptions) : FieldOptions :=
  {| onChange := onChange o; isEdit := isEdit o; innerRef := innerRef o;
     values := Some vs; SelectComponent := SelectComponent o;
     valueKey := valueKey o; labelKey := labelKey o |}.

Definition with_SelectComponent (c : ReactComponent) (o : FieldOptions) : FieldOptions :=
  {| onChange := onChange o; isEdit := isEdit o; innerRef := innerRef o;
     values := values o; SelectComponent := Some c;
     valueKey := valueKey o; labelKey := labelKey o |}.

(** [options.onChange = options.onChange || action(..., value => field.value = value)]. *)
Definition default_onChange (field : EntityField) (o : FieldOptions) : FieldOptions :=
  match onChange o with
  | Some _ => o
  | None => with_onChange (AssignValue (name (field_entry field))) o
  end.

(** [field.$field.domain], read through the store.  A field always has a
    domain object; a dangling name reads as an object with no member. *)
Definition empty_domain : Domain :=
  {| className := None; displayFormatter := None; inputFormatter := None;
     unformatter := None; validator := None; DisplayComponent := None;
     displayProps := None; InputComponent := None; inputProps := None;
     LabelComponent := None; labelProps := None |}.

Definition domain_of (ds : Domains) (field : EntityField) : Domain :=
  default empty_domain (ds !! domain (field_entry field)).

(** [const {displayFormatter = (t: string) => i18next.t(t)} = domain]. *)
Definition formatter_of (translate : Js.value -> string) (d : Domain) : Js.value -> string :=
  default translate (displayFormatter d).

(** ** The helper file with [displayFor]

    The last file kept under [list/components/action-bar.tsx] (lines 567 to
    674). *)

Module Helpers.
Section WithTranslate.

(** [i18next.t], the translation service. *)
Variable translate : Js.value -> string.

(** [fieldFor(field, options)]. *)
Definition fieldFor (ds : Domains) (field : EntityField) (options : FieldOptions) : Rendered :=
  let o1 := default_onChange field options in
  let o2 :=
    if innerRef o1 then o1
    else match isEdit o1 with
         | None => with_isEdit true o1
         | Some _ => o1
         end in
  {| domains_after := ds; options_after := o2;
     element := {| el_field := field; el_props := o2 |} |}.

(** [displayFor(field, options)]. *)
Definition displayFor (ds : Domains) (field : EntityField) (options : FieldOptions) : Rendered :=
  fieldFor ds field (with_isEdit false options).

(** [selectFor(field, values, options)]:
    [field.$field.domain.InputComponent = options.SelectComponent || Select]
    writes into the domain object itself. *)
Definition selectFor (ds : Domains) (field : EntityField) (vs : list Js.object)
    (options : FieldOptions) : Rendered :=
  let c := default Select (SelectComponent options) in
  let ds' := <[domain (field_entry field) := set_InputComponent c (domain_of ds field)]> ds in
  fieldFor ds' field (with_values vs options).

(** [stringFor(field, options)]. *)
Definition stringFor (ds : Domains) (field : EntityField) (options : FieldOptions) : string :=
  let displayFormatter := formatter_of translate (domain_of ds field) in
  let valueKey := default "code" (valueKey options) in
  let labelKey := default "label" (labelKey options) in
  let values := default [] (values options) in
  let found := Js.find (fun val => Js.strict_eq (Js.get val valueKey) (value field)) values in
  let processedValue :=
    match found with
    | Some found => Js.or (Js.get found labelKey) (value field)
    | None => value field
    end in
  displayFormatter processedValue.

End WithTranslate.
End Helpers.

(** ** [entity/field/utils.tsx] *)

(** A [ReferenceList]: an array that may carry [$valueKey] and [$labelKey]. *)
Record ReferenceList : Type := {
  items : list Js.object;
  ref_valueKey : option string;    (* $valueKey *)
  ref_labelKey : option string     (* $labelKey *)
}.

Module Utils.
Section WithTranslate.

Variable translate : Js.value -> string.

(** [fieldFor(field, options)]. *)
Definition fieldFor (ds : Domains) (field : EntityField) (options : FieldOptions) : Rendered :=
  let o1 := default_onChange field options in
  {| domains_after := ds; options_after := o1;
     element := {| el_field := field; el_props := o1 |} |}.

(** [selectFor(field, values, options)]: the component goes into the
    options, the domain is only read. *)
Definition selectFor (ds : Domains) (field : EntityField) (vs : list Js.object)
    (options : FieldOptions) : Rendered :=
  let o1 := with_SelectComponent (default Select (SelectComponent options)) options in
  fieldFor ds field (with_values vs o1).

(** [stringFor(field, values = [])]. *)
Definition stringFor (ds : Domains) (field : EntityField) (vs : ReferenceList) : string :=
  let displayFormatter := formatter_of translate (domain_of ds field) in
  let valueKey := default "code" (ref_valueKey vs) in
  let labelKey := default "label" (ref_labelKey vs) in
  let found := Js.find (fun val => Js.strict_eq (Js.get val valueKey) (value field)) (items vs) in
  let processedValue :=
    match found with
    | Some found => Js.or (Js.get found labelKey) (value field)
    | None => value field
    end in
  displayFormatter processedValue.

End WithTranslate.
End Utils.

(** ** Promises and [async] methods *)

Module Async.

(** What a rejected promise carries: [null]/[undefined], or an object that
    may have a [fields] member, a map from field names to messages. *)
Inductive reason : Type :=
| Nullish
| ErrorObject (fields : option (gmap string string)).

(** What an [async] method can throw. *)
Inductive exn : Type :=
| TypeError
| ServiceError (r : reason).

(** How the awaited promise settles. *)
Inductive outcome (D : Type) : Type :=
| Resolved (d : D)
| Rejected (r : reason).
Arguments Resolved {D} d.
Arguments Rejected {D} r.

(** An [async] method run on the state [S] of its object: it returns, it
    throws (its promise rejects), or it calls a collaborator [call] and
    awaits the promise.  The state in [Await] is the one the method leaves
    when it suspends; the continuation gets the outcome and the state the
    object has when the method is resumed. *)
Inductive task (S C D : Type) : Type :=
| Return (s : S)
| Throw (s : S) (e : exn)
| Await (s : S) (call : C) (k : outcome D -> S -> task S C D).
Arguments Return {S C D} s.
Arguments Throw {S C D} s e.
Arguments Await {S C D} s call k.

Section Run.
Context {S C D : Type}.

(** The state when control goes back to the event loop. *)
Definition state_of (t : task S C D) : S :=
  match t with
  | Return s | Throw s _ | Await s _ _ => s
  end.

(** A complete run: [answer] settles every collaborator call, [meanwhile]
    is what the rest of the program does to the object while the promise
    is pending.  The result is the final state, the exception if the
    method's promise rejects, and the collaborator calls in order. *)
Fixpoint run (answer : C -> outcome D) (meanwhile : S -> S) (t : task S C D)
  : S * option exn * list C :=
  match t with
  | Return s => (s, None, [])
  | Throw s e => (s, Some e, [])
  | Await s c k =>
      let '(s', e, cs) := run answer meanwhile (k (answer c) (meanwhile s)) in
      (s', e, c :: cs)
  end.

Definition final (r : S * option exn * list C) : S := r.1.1.
Definition thrown (r : S * option exn * list C) : option exn := r.1.2.
Definition calls (r : S * option exn * list C) : list C := r.2.
End Run.

End Async.
Import Async.

(** ** Store nodes and form nodes *)

(** Modelled from the spec: the view-model code ([makeFormNode], [subscribe],
    [unsubscribe], [reset]) is not part of the sources at hand.  A form node
    is "a Store Node of the same shape as a designated source node", whose
    "edit-mode flags live on the View Model's form facet"; "while subscribed,
    any change made directly to the source node is mirrored into the view
    model"; [reset] "recopies every value from the source subtree".  [N] is
    the content of a store node, [V] that of the form node's own fields; what
    mirroring and recopying do to them is left to [observe] and [reset] of
    the [Store]. *)
Record FormNodeOf (N V : Type) : Type := {
  view : V;
  sourceNode : N;
  form_isEdit : bool;      (* entity.form.isEdit *)
  subscribed : bool
}.
Arguments view {N V} _.
Arguments sourceNode {N V} _.
Arguments form_isEdit {N V} _.
Arguments subscribed {N V} _.

(** The store and view-model code the forms call.  [Node] is the content of a
    store node, [View] that of a view model, [Data] a plain entity object and
    [Param] a load parameter. *)
Class Store : Type := {
  Node : Type;
  View : Type;
  Data : Type;
  Param : Type;
  (** [node.set(data)] *)
  set : Data -> Node -> Node;
  (** [node.clear()] *)
  clear : Node -> Node;
  (** [toFlatValues(entity)] *)
  toFlatValues : View -> Data;
  (** [entity.form.isValid] *)
  isValid : FormNodeOf Node View -> bool;
  (** [entity.reset()], given the source node *)
  reset : Node -> View -> View;
  (** what a subscribed view model does when its source node has changed to
      the given node *)
  observe : Node -> View -> View
}.

Abbreviation FormNode := (FormNodeOf Node View).

(** The calls a form makes to its service configuration. *)
Inductive Call `{Store} : Type :=
| CallLoad (params : list Param)
| CallSave (entity : Data).

Section FormNodeOps.
Context `{Store}.

Definition set_form_isEdit (b : bool) (e : FormNode) : FormNode :=
  {| view := view e; sourceNode := sourceNode e; form_isEdit := b;
     subscribed := subscribed e |}.

Definition set_subscribed (b : bool) (e : FormNode) : FormNode :=
  {| view := view e; sourceNode := sourceNode e; form_isEdit := form_isEdit e;
     subscribed := b |}.

(** The source node becomes [n]; a subscribed view model observes it. *)
Definition source_changed (n : Node) (e : FormNode) : FormNode :=
  {| view := if subscribed e then observe n (view e) else view e;
     sourceNode := n; form_isEdit := form_isEdit e;
     subscribed := subscribed e |}.

(** [entity.sourceNode.set(data)] *)
Definition sourceNode_set (data : Data) (e : FormNode) : FormNode :=
  source_changed (set data (sourceNode e)) e.

(** [entity.sourceNode.clear()] *)
Definition sourceNode_clear (e : FormNode) : FormNode :=
  source_changed (clear (sourceNode e)) e.

(** [entity.reset()] *)
Definition entity_reset (e : FormNode) : FormNode :=
  {| view := reset (sourceNode e) (view e); sourceNode := sourceNode e;
     form_isEdit := form_isEdit e; subscribed := subscribed e |}.

(** [entity.subscribe()], [entity.unsubscribe()] *)
Definition subscribe (e : FormNode) : FormNode := set_subscribed true e.
Definition unsubscribe (e : FormNode) : FormNode := set_subscribed false e.
End FormNodeOps.

(** ** [AutoForm], the revision with [editingMap]

    The second file of [unnamed/part_000] (lines 321 to 548). *)

Module AutoForm.

(** [ServiceConfig]; [save] is mandatory, so only the presence of the
    optional members is recorded.  A service is known by the calls made to
    it ([CallLoad], [CallSave]). *)
Record ServiceConfig `{Store} : Type := {
  getLoadParams : option (unit -> option (list Param));
  load_service : bool                      (* [load] is supplied *)
}.

(** The state of one form: the members the methods read or write, and the
    success messages the form has handed to [messageStore].  [className]
    and [hasForm] only matter to [render]; [formId], set once from [v4()],
    is the key under which the form is displayed (see [World]). *)
Record state `{Store} : Type := {
  forceErrorDisplay : bool;                (* formContext.forceErrorDisplay *)
  entity : FormNode;
  services : ServiceConfig;
  isLoading : bool;
  i18nPrefix : string;
  messages : list string
}.

(** The methods "à éventuellement surcharger". *)
Class Hooks `{Store} : Type := {
  onFormLoaded : state -> state;
  onFormSaved : state -> state
}.

Section Methods.
Context `{Store}.

Definition set_forceErrorDisplay (b : bool) (f : state) : state :=
  {| forceErrorDisplay := b; entity := entity f;
     services := services f; isLoading := isLoading f;
     i18nPrefix := i18nPrefix f; messages := messages f |}.

Definition set_entity (e : FormNode) (f : state) : state :=
  {| forceErrorDisplay := forceErrorDisplay f; entity := e;
     services := services f; isLoading := isLoading f;
     i18nPrefix := i18nPrefix f; messages := messages f |}.

Definition set_isLoading (b : bool) (f : state) : state :=
  {| forceErrorDisplay := forceErrorDisplay f;
     entity := entity f; services := services f; isLoading := b;
     i18nPrefix := i18nPrefix f; messages := messages f |}.

(** [messageStore.addSuccessMessage(m)] *)
Definition addSuccessMessage (m : string) (f : state) : state :=
  {| forceErrorDisplay := forceErrorDisplay f;
     entity := entity f; services := services f; isLoading := isLoading f;
     i18nPrefix := i18nPrefix f; messages := messages f ++ [m] |}.

(** The hooks as the class defines them. *)
Definition default_hooks : Hooks := {|
  onFormLoaded f := f;
  onFormSaved f := addSuccessMessage (i18nPrefix f ++ ".detail.saved") f
|}.

Context {hooks : Hooks}.

(** [toggleEdit(isEdit)] *)
Definition toggleEdit (isEdit : bool) (f : state) : state :=
  let f1 := set_entity (set_form_isEdit isEdit (entity f)) f in
  if negb isEdit then set_entity (entity_reset (entity f1)) f1 else f1.

(** [load()] *)
Definition load (f : state) : task state Call Data :=
  match getLoadParams (services f), load_service (services f) with
  | Some getLoadParams, true =>
      match getLoadParams () with
      | Some params =>
          let f1 := set_isLoading true f in
          let f2 := set_entity (sourceNode_clear (entity f1)) f1 in
          Await f2 (CallLoad params) (fun data f3 =>
            match data with
            | Resolved data =>
                (* runInAction("afterLoad", ...) *)
                let f4 := set_entity (sourceNode_set data (entity f3)) f3 in
                let f5 := set_isLoading false f4 in
                Return (onFormLoaded f5)
            | Rejected e => Throw f3 (ServiceError e)
            end)
      | None => Return f
      end
  | _, _ => Return f
  end.

(** [save()].  The form node always has its [form] member, so the guard
    [!this.entity.form || this.entity.form.isValid] is [isValid]. *)
Definition save (f : state) : task state Call Data :=
  let f1 := set_forceErrorDisplay true f in
  if isValid (entity f1) then
    let f2 := set_isLoading true f1 in
    Await f2 (CallSave (toFlatValues (view (entity f2)))) (fun data f3 =>
      match data with
      | Resolved data =>
          (* runInAction("afterSave", ...) *)
          let f4 := set_isLoading false f3 in
          let f5 := set_entity (set_form_isEdit false (entity f4)) f4 in
          let f6 := set_entity (sourceNode_set data (entity f5)) f5 in
          Return (onFormSaved f6)
      | Rejected e => Return (set_isLoading false f3)
      end)
  else Return f1.

End Methods.

(** *** The static members: [editingMap] and [isOneEdit] *)

(** [AutoForm.editingMap] and the forms on display, by [formId]. *)
Record World `{Store} : Type := {
  editingMap : gmap string bool;
  displayed : gmap string state
}.

Section Registry.
Context `{Store} {hooks : Hooks}.

Definition no_form : World := {| editingMap := ∅; displayed := ∅ |}.

(** [static get isOneEdit()]: [editingMap.values().some(x => x)]. *)
Definition isOneEdit (w : World) : bool :=
  existsb (fun x => x) (map_to_list (editingMap w)).*2.

(** [updateApplicationStore()] of the form [formId] in state [f]. *)
Definition updateApplicationStore (formId : string) (f : state)
    (m : gmap string bool) : gmap string bool :=
  <[formId := form_isEdit (entity f)]> m.

(** Modelled from the spec: [classAutorun], which decorates
    [updateApplicationStore], is not part of the sources at hand.  The
    global query "must reflect additions/removals/toggles synchronously":
    the decorated method runs when the form mounts and, as long as the form
    is displayed, at the end of every action on it.  [action formId f w] is
    the page once an action has brought the displayed form [formId] to the
    state [f] and the method has run. *)
Definition action (formId : string) (f : state) (w : World) : World :=
  {| editingMap := updateApplicationStore formId f (editingMap w);
     displayed := <[formId := f]> (displayed w) |}.

(** [componentWillMount()], up to the point where [load()] suspends or
    returns.  [init()] has built the state [f]; [formId] comes from [v4()]. *)
Definition componentWillMount (formId : string) (f : state) (w : World) : World :=
  let w1 := {| editingMap := <[formId := form_isEdit (entity f)]> (editingMap w);
               displayed := displayed w |} in
  let f1 := set_entity (subscribe (entity f)) f in
  let f2 := state_of (load f1) in
  action formId f2 w1.

(** [componentWillUnmount()]: the form leaves the display; its autorun and
    its load reaction are disposed of. *)
Definition componentWillUnmount (formId : string) (w : World) : World :=
  {| editingMap := delete formId (editingMap w);
     displayed := delete formId (displayed w) |}.

Definition set_view (v : View) (f : state) : state :=
  set_entity {| view := v; sourceNode := sourceNode (entity f);
                form_isEdit := form_isEdit (entity f);
                subscribed := subscribed (entity f) |} f.

(** What one turn of the event loop can do to a form: a call of one of
    its methods up to its [await], the rest of a method once the awaited
    promise has settled, or an input that changes the view model. *)
Inductive transition : state -> state -> Prop :=
| toggleEdit_called isEdit f :
    transition f (toggleEdit isEdit f)
| load_called f :
    transition f (state_of (load f))
| save_called f :
    transition f (state_of (save f))
| load_resumed f0 s c k data f :
    load f0 = Await s c k -> transition f (state_of (k data f))
| save_resumed f0 s c k data f :
    save f0 = Await s c k -> transition f (state_of (k data f))
| input_changed v f :
    transition f (set_view v f).

(** The life of the page: forms mount under an identifier no displayed
    form has, act while displayed, and unmount. *)
Inductive step : World -> World -> Prop :=
| step_mount formId f w :
    displayed w !! formId = None ->
    step w (componentWillMount formId f w)
| step_action formId f f' w :
    displayed w !! formId = Some f ->
    transition f f' ->
    step w (action formId f' w)
| step_unmount formId w :
    step w (componentWillUnmount formId w).

Definition reachable (w : World) : Prop := rtc step no_form w.

(** The edit flags of the forms on display. *)
Definition edit_flags (w : World) : list bool :=
  (fun f => form_isEdit (entity f)) <$> (map_to_list (displayed w)).*2.

(** The registry holds, for every displayed form and for no other, the
    edit flag of its form node. *)
Definition consistent (w : World) : Prop :=
  editingMap w = (fun f => form_isEdit (entity f)) <$> displayed w.

(** The page together with React's account of it: [page ids w] when, after
    some mounts, actions and unmounts, React has the forms [ids] mounted
    and the program has reached [w].  [ids] follows the calls React makes:
    a form is mounted from the call of its [componentWillMount] to the call
    of its [componentWillUnmount], whatever these methods do to [w]. *)
Inductive page : gset string -> World -> Prop :=
| page_start :
    page ∅ no_form
| page_mount ids w formId f :
    page ids w -> formId ∉ ids ->
    page ({[formId]} ∪ ids) (componentWillMount formId f w)
| page_action ids w formId f f' :
    page ids w -> formId ∈ ids ->
    displayed w !! formId = Some f -> transition f f' ->
    page ids (action formId f' w)
| page_unmount ids w formId :
    page ids w -> formId ∈ ids ->
    page (ids ∖ {[formId]}) (componentWillUnmount formId w).

(** A displayed form other than [formId] is in edit mode. *)
Definition other_editing (formId : string) (w : World) : Prop :=
  exists other g,
    other ≠ formId /\ displayed w !! other = Some g /\ form_isEdit (entity g) = true.

End Registry.

End AutoForm.

(** ** [AutoForm], the earlier revision

    The first file of [unnamed/part_000] (lines 1 to 320). *)

Module LegacyAutoForm.

(** A [Field] component as the form sees it through its ref. *)
Record Field : Type := {
  error : option string;
  showError : bool
}.

(** What the form does to the stores outside of it. *)
Inductive Effect : Type :=
| ChangeMode (mode previous : string)    (* applicationStore.changeMode *)
| SuccessMessage (key : string).         (* messageStore.addSuccessMessage *)

Record ServiceConfig `{Store} : Type := {
  getLoadParams : option (unit -> option (list Param));
  load_service : bool                      (* [load] is supplied *)
}.

(** The state of one form.  [fields] lists the refs in the order [for in]
    visits them; a ref is [null] once its field has gone.  [delete()] and
    the members that only matter to [render] are left out. *)
Record state `{Store} : Type := {
  entity : View;
  subscribed : bool;
  storeData : Node;
  services : ServiceConfig;
  errors : gmap string string;
  fields : list (string * option Field);
  isEdit : bool;
  isLoading : bool;
  effects : list Effect
}.

Class Hooks `{Store} : Type := {
  onFormLoaded : state -> state;
  onFormSaved : state -> state
}.

Section Methods.
Context `{Store}.

Definition set_entity (v : View) (f : state) : state :=
  {| entity := v; subscribed := subscribed f; storeData := storeData f;
     services := services f; errors := errors f; fields := fields f;
     isEdit := isEdit f; isLoading := isLoading f; effects := effects f |}.

Definition set_errors (e : gmap string string) (f : state) : state :=
  {| entity := entity f; subscribed := subscribed f; storeData := storeData f;
     services := services f; errors := e; fields := fields f;
     isEdit := isEdit f; isLoading := isLoading f; effects := effects f |}.

Definition set_fields (fs : list (string * option Field)) (f : state) : state :=
  {| entity := entity f; subscribed := subscribed f; storeData := storeData f;
     services := services f; errors := errors f; fields := fs;
     isEdit := isEdit f; isLoading := isLoading f; effects := effects f |}.

Definition set_isEdit (b : bool) (f : state) : state :=
  {| entity := entity f; subscribed := subscribed f; storeData := storeData f;
     services := services f; errors := errors f; fields := fields f;
     isEdit := b; isLoading := isLoading f; effects := effects f |}.

Definition set_isLoading (b : bool) (f : state) : state :=
  {| entity := entity f; subscribed := subscribed f; storeData := storeData f;
     services := services f; errors := errors f; fields := fields f;
     isEdit := isEdit f; isLoading := b; effects := effects f |}.

Definition emit (e : Effect) (f : state) : state :=
  {| entity := entity f; subscribed := subscribed f; storeData := storeData f;
     services := services f; errors := errors f; fields := fields f;
     isEdit := isEdit f; isLoading := isLoading f; effects := effects f ++ [e] |}.

(** [storeData.set(data)]; a subscribed view model observes it. *)
Definition storeData_set (data : Data) (f : state) : state :=
  let n := set data (storeData f) in
  {| entity := if subscribed f then observe n (entity f) else entity f;
     subscribed := subscribed f; storeData := n;
     services := services f; errors := errors f; fields := fields f;
     isEdit := isEdit f; isLoading := isLoading f; effects := effects f |}.

(** The hooks as the class defines them: empty. *)
Definition default_hooks : Hooks := {|
  onFormLoaded f := f;
  onFormSaved f := f
|}.

Context {hooks : Hooks}.

(** [toggleEdit(isEdit)] *)
Definition toggleEdit (b : bool) (f : state) : state :=
  let f1 := set_isEdit b f in
  if b then emit (ChangeMode "edit" "consult") f1
  else
    let f2 := set_entity (reset (storeData f1) (entity f1)) f1 in
    emit (ChangeMode "consult" "edit") f2.

(** [load()] *)
Definition load (f : state) : task state Call Data :=
  match getLoadParams (services f), load_service (services f) with
  | Some getLoadParams, true =>
      match getLoadParams () with
      | Some params =>
          let f1 := set_isLoading true f in
          Await f1 (CallLoad params) (fun data f2 =>
            match data with
            | Resolved data =>
                let f3 := storeData_set data f2 in
                let f4 := set_isLoading false f3 in
                Return (onFormLoaded f4)
            | Rejected e => Throw f2 (ServiceError e)
            end)
      | None => Return f
      end
  | _, _ => Return f
  end.

(** The loop of [validate()]: [this.fields[field]!.showError = true] for
    every key; the flag tells whether the loop went through (a [null]
    ref stops it with a [TypeError]). *)
Fixpoint showErrors (fs : list (string * option Field))
  : list (string * option Field) * bool :=
  match fs with
  | [] => ([], true)
  | (k, Some fd) :: r =>
      let '(r', ok) := showErrors r in
      ((k, Some {| error := error fd; showError := true |}) :: r', ok)
  | (k, None) :: r => ((k, None) :: r, false)
  end.

(** [field && field.error] as a condition. *)
Definition in_error (field : option Field) : bool :=
  match field with
  | Some fd =>
      match error fd with
      | Some m => negb (String.eqb m "")
      | None => false
      end
  | None => false
  end.

(** [validate()]: the state it leaves and its result, [None] when it
    throws. *)
Definition validate (f : state) : state * option bool :=
  let '(fs, ok) := showErrors (fields f) in
  let f1 := set_fields fs f in
  if ok then (f1, Some (negb (existsb in_error (fields f1).*2)))
  else (f1, None).

(** [save()] *)
Definition save (f : state) : task state Call Data :=
  match validate f with
  | (f1, None) => Throw f1 TypeError
  | (f1, Some false) => Return f1
  | (f1, Some true) =>
      let f2 := set_isLoading true f1 in
      Await f2 (CallSave (toFlatValues (entity f2))) (fun data f3 =>
        match data with
        | Resolved data =>
            let f4 := emit (SuccessMessage "detail.saved") f3 in
            let f5 := set_isLoading false f4 in
            let f6 := set_isEdit false f5 in
            let f7 := storeData_set data f6 in
            Return (onFormSaved f7)
        | Rejected e =>
            let f4 := set_isLoading false f3 in
            match e with
            | Nullish => Throw f4 TypeError       (* e.fields on no object *)
            | ErrorObject (Some fields) => Return (set_errors fields f4)
            | ErrorObject None => Return f4
            end
        end)
  end.

End Methods.

End LegacyAutoForm.

(** ** A small store, for the examples *)

Module Sample.

(** Modelled from the spec: the store code is not part of the sources at
    hand.  An entity with scalar fields only: [set] "merge-assigns" the
    keys present in the data and leaves the others, [clear] "resets every
    field to undefined", [reset] "recopies every value from the source",
    and a subscribed view model takes over the values of its source.  The
    field [name] is required: the view model is valid when it is filled. *)
Definition store : Store := {|
  Node := gmap string Js.value;
  View := gmap string Js.value;
  Data := gmap string Js.value;
  Param := Js.value;
  set data node := data ∪ node;
  clear node := (fun _ => Js.Undefined) <$> node;
  toFlatValues v := v;
  isValid entity := Js.truthy (Js.get (view entity) "name");
  reset source _ := source;
  observe source _ := source
|}.

Definition ann : gmap string Js.value :=
  {[ "name" := Js.Str "Ann"; "email" := Js.Str "ann" ]}.

Definition nobody : gmap string Js.value :=
  {[ "name" := Js.Str ""; "email" := Js.Str "ann" ]}.

(** The domain [DO_CODE], shared by two fields. *)
Definition domains : Domains := {[ "DO_CODE" := empty_domain ]}.

Definition country : EntityField :=
  {| field_entry := {| domain := "DO_CODE"; isRequired := false;
                       name := "country"; translationKey := "person.country" |};
     value := Js.Str "FR" |}.

Definition currency : EntityField :=
  {| field_entry := {| domain := "DO_CODE"; isRequired := false;
                       name := "currency"; translationKey := "person.currency" |};
     value := Js.Str "EUR" |}.

Definition countries : list Js.object :=
  [ {[ "code" := Js.Str "DE"; "label" := Js.Str "Germany" ]};
    {[ "code" := Js.Str "FR"; "label" := Js.Str "France" ]};
    {[ "code" := Js.Str "FR"; "label" := Js.Str "Frankreich" ]} ].

Definition translate (v : Js.value) : string :=
  match v with
  | Js.Str s => "t:" ++ s
  | _ => "t"
  end.

#[local] Existing Instance store.

Definition services : AutoForm.ServiceConfig :=
  {| AutoForm.getLoadParams := Some (fun _ => Some [Js.Num 7]);
     AutoForm.load_service := true |}.

(** A displayed form in edit mode, its view model filled and valid. *)
Definition editing : AutoForm.state :=
  {| AutoForm.forceErrorDisplay := false;
     AutoForm.entity := {| view := ann; sourceNode := ann;
                           form_isEdit := true; subscribed := true |};
     AutoForm.services := services;
     AutoForm.isLoading := false;
     AutoForm.i18nPrefix := "focus";
     AutoForm.messages := [] |}.

(** The same form once [save()] has been called on it, the save still in
    flight. *)
Definition saving : AutoForm.state :=
  state_of (AutoForm.save (hooks := AutoForm.default_hooks) editing).

(** The same form with the required name emptied. *)
Definition invalid : AutoForm.state := AutoForm.set_view nobody editing.

(** A form whose parameter function yields nothing. *)
Definition unparameterised : AutoForm.state :=
  {| AutoForm.forceErrorDisplay := false;
     AutoForm.entity := {| view := ann; sourceNode := ann;
                           form_isEdit := false; subscribed := true |};
     AutoForm.services := {| AutoForm.getLoadParams := Some (fun _ => None);
                             AutoForm.load_service := true |};
     AutoForm.isLoading := false;
     AutoForm.i18nPrefix := "focus";
     AutoForm.messages := [] |}.

(** A form of the earlier revision, in edit mode, with an error left by a
    previous save. *)
Definition legacy : LegacyAutoForm.state :=
  {| LegacyAutoForm.entity := ann;
     LegacyAutoForm.subscribed := true;
     LegacyAutoForm.storeData := ann;
     LegacyAutoForm.services :=
       {| LegacyAutoForm.getLoadParams := Some (fun _ => Some [Js.Num 7]);
          LegacyAutoForm.load_service := true |};
     LegacyAutoForm.errors := {[ "name" := "required" ]};
     LegacyAutoForm.fields :=
       [("person.name", Some {| LegacyAutoForm.error := None;
                                LegacyAutoForm.showError := false |})];
     LegacyAutoForm.isEdit := true;
     LegacyAutoForm.isLoading := false;
     LegacyAutoForm.effects := [] |}.

(** Services that resolve with [data], or reject with [r], whatever the
    call. *)
Definition resolves (data : gmap string Js.value) : Call -> outcome Data :=
  fun _ => Resolved data.

Definition rejects (r : reason) : Call -> outcome Data :=
  fun _ => Rejected r.

Definition anna : gmap string Js.value := {[ "name" := Js.Str "Anna" ]}.

Definition email_invalid : reason :=
  ErrorObject (Some {[ "email" := "invalid" ]}).

(** A page that has mounted the editing form, and one that has mounted and
    unmounted it. *)
Definition one_form : AutoForm.World :=
  AutoForm.componentWillMount (hooks := AutoForm.default_hooks) "form-1" editing
    AutoForm.no_form.

Definition left_page : AutoForm.World :=
  AutoForm.componentWillUnmount "form-1" one_form.

Definition country_list : ReferenceList :=
  {| items := countries; ref_valueKey := None; ref_labelKey := None |}.

End Sample.

(** ** The rest of the earlier [AutoForm]

    [delete()] (lines 130 to 143), [setFieldOptions] (lines 304 to 319) and
    the ref it hands to a field. *)

Module LegacyForm.

(** The call [delete()] makes to the service configuration. *)
Inductive DeleteCall `{Store} : Type :=
| CallDelete (entity : Data).

(** What [setFieldOptions] adds to the options of a field: the key of
    [this.fields] its [ref] writes to, and the [error] it passes on. *)
Record FormFieldOptions : Type := {
  field_options : FieldOptions;
  ref_key : string;
  error_option : option string
}.

(** [object[key] = value] on an object kept in the order of its keys: the
    value of a known key is replaced where it stands, a new key goes last. *)
Fixpoint assign {A : Type} (key : string) (v : A) (o : list (string * A))
  : list (string * A) :=
  match o with
  | [] => [(key, v)]
  | (k, x) :: r => if String.eqb k key then (k, v) :: r else (k, x) :: assign key v r
  end.

(** A ref after [this.fields[field]!.showError = true]. *)
Definition shown (field : option LegacyAutoForm.Field) : option LegacyAutoForm.Field :=
  (fun fd => {| LegacyAutoForm.error := LegacyAutoForm.error fd;
                LegacyAutoForm.showError := true |}) <$> field.

Section Methods.
Context `{Store}.

(** [onFormDeleted()], "à éventuellement surcharger". *)
Variable onFormDeleted : LegacyAutoForm.state -> LegacyAutoForm.state.

(** Whether [(this.entity as any)[name]] is there. *)
Variable has_member : View -> string -> bool.

(** [storeData.clear()]; a subscribed view model observes it. *)
Definition storeData_clear (f : LegacyAutoForm.state) : LegacyAutoForm.state :=
  let n := clear (LegacyAutoForm.storeData f) in
  {| LegacyAutoForm.entity :=
       if LegacyAutoForm.subscribed f then observe n (LegacyAutoForm.entity f)
       else LegacyAutoForm.entity f;
     LegacyAutoForm.subscribed := LegacyAutoForm.subscribed f;
     LegacyAutoForm.storeData := n;
     LegacyAutoForm.services := LegacyAutoForm.services f;
     LegacyAutoForm.errors := LegacyAutoForm.errors f;
     LegacyAutoForm.fields := LegacyAutoForm.fields f;
     LegacyAutoForm.isEdit := LegacyAutoForm.isEdit f;
     LegacyAutoForm.isLoading := LegacyAutoForm.isLoading f;
     LegacyAutoForm.effects := LegacyAutoForm.effects f |}.

(** [delete()]; [delete_service] tells whether [services.delete] is
    supplied.  What the service resolves with is not looked at. *)
Definition delete (delete_service : bool) (f : LegacyAutoForm.state)
  : task LegacyAutoForm.state DeleteCall Js.value :=
  if delete_service then
    let f1 := LegacyAutoForm.set_isLoading true f in
    Await f1 (CallDelete (toFlatValues (LegacyAutoForm.entity f1))) (fun result f2 =>
      match result with
      | Resolved _ =>
          let f3 := LegacyAutoForm.emit (LegacyAutoForm.SuccessMessage "detail.deleted") f2 in
          let f4 := LegacyAutoForm.set_isLoading false f3 in
          let f5 := storeData_clear f4 in
          Return (onFormDeleted f5)
      | Rejected e => Throw f2 (ServiceError e)
      end)
  else Return f.

(** [setFieldOptions(field, options)]. *)
Definition setFieldOptions (f : LegacyAutoForm.state) (field : EntityField)
    (options : FieldOptions) : FormFieldOptions :=
  let key := translationKey (field_entry field) in
  let o1 :=
    match isEdit options with
    | None => with_isEdit (LegacyAutoForm.isEdit f) options
    | Some _ => options
    end in
  let o2 :=
    if has_member (LegacyAutoForm.entity f) (name (field_entry field))
    then default_onChange field o1
    else o1 in
  {| field_options := o2; ref_key := key;
     error_option := LegacyAutoForm.errors f !! key |}.

(** The ref of [setFieldOptions], called by React with the field component
    when it mounts and with [null] when it unmounts:
    [f => this.fields[key] = f]. *)
Definition ref (key : string) (component : option LegacyAutoForm.Field)
    (f : LegacyAutoForm.state) : LegacyAutoForm.state :=
  LegacyAutoForm.set_fields (assign key component (LegacyAutoForm.fields f)) f.

End Methods.

End LegacyForm.

(** ** The [Select] component ([components/select.tsx])

    The component [selectFor] puts in place of the input. *)

Module SelectInput.

(** [`${v}`]: a value inside a template literal. *)
Definition template (v : Js.value) : string :=
  match v with
  | Js.Undefined => "undefined"
  | Js.Null => "null"
  | Js.Bool true => "true"
  | Js.Bool false => "false"
  | Js.Num n => pretty n
  | Js.NaN => "NaN"
  | Js.Str s => s
  end.

(** The members of [SelectProps] that decide the options and the value. *)
Record SelectProps : Type := {
  labelKey : string;
  valueKey : string;
  values : list Js.object;
  value : Js.value;
  hasUndefined : option bool;        (* "Par défaut : true" *)
  i18nPrefix : option string;        (* "Par défaut : focus" *)
  unSelectedLabel : option string
}.

(** [<option value={optVal}>{label}</option>] *)
Record Option : Type := {
  optVal : string;
  optText : string
}.

(** The [<select>] rendered: its [value] and its options. *)
Record Rendered : Type := {
  selected : Js.value;
  options : list Option
}.

Section WithTranslate.

(** [i18next.t] *)
Variable translate : Js.value -> string.

(** The values listed, the empty element first when [hasUndefined]. *)
Definition finalValues (props : SelectProps) : list Js.object :=
  let i18nPrefix := default "focus" (i18nPrefix props) in
  let unSelectedLabel := default (i18nPrefix ++ ".select.unselected") (unSelectedLabel props) in
  if default true (hasUndefined props)
  then <[labelKey props := Js.Str (translate (Js.Str unSelectedLabel))]>
         (<[valueKey props := Js.Str ""]> ∅) :: values props
  else values props.

(** One option of the list. *)
Definition option_of (props : SelectProps) (val : Js.object) : Option :=
  let i18nPrefix := default "focus" (i18nPrefix props) in
  let elementValue := Js.get val (labelKey props) in
  let optLabel :=
    if Js.strict_eq elementValue Js.Undefined
    then Js.Str (translate (Js.Str (i18nPrefix ++ ".select.noLabel")))
    else elementValue in
  {| optVal := template (Js.get val (valueKey props));
     optText := translate optLabel |}.

(** [Select(props)] *)
Definition Select (props : SelectProps) : Rendered :=
  {| selected := if Js.strict_eq (value props) Js.Undefined then Js.Str "" else value props;
     options := option_of props <$> finalValues props |}.

End WithTranslate.

(** What [onChange] receives when the [<select>] takes the value [v]:
    [onChange(v || undefined)]. *)
Definition changed (v : string) : Js.value := Js.or (Js.Str v) Js.Undefined.

(** The user picks the option at [idx]. *)
Definition pick (r : Rendered) (idx : nat) : option Js.value :=
  (fun o => changed (optVal o)) <$> options r !! idx.

(** The reference list [stringFor] needs to give the text of the field this
    select edits: the same values under the same keys. *)
Definition reference_list (props : SelectProps) : ReferenceList :=
  {| items := values props;
     ref_valueKey := Some (valueKey props);
     ref_labelKey := Some (labelKey props) |}.

End SelectInput.

(** ** The action bar of a list

    The first file kept under [list/components/action-bar.tsx] (lines 1 to
    124). *)

Module ActionBar.

(** ["none" | "partial" | "selected"] *)
Inductive Status : Type := none | partial | selected.

#[global] Instance Status_eq_dec : EqDecision Status.
Proof. solve_decision. Defined.

(** What the handlers of the bar call. *)
Inductive Handler : Type :=
| selectionAction (status : Status)
| orderAction (key : string) (order : bool)
| groupAction (key : option string).

Record Column : Type := {
  key : string;
  label : string;
  order : bool
}.

Record OrderSelected : Type := {
  selected_key : option string;
  selected_order : option bool
}.

(** [ActionBarProps]; for a handler, whether it is supplied. *)
Record ActionBarProps : Type := {
  hasSelection : bool;
  hasGrouping : bool;
  selectionStatus : option Status;
  has_selectionAction : bool;
  orderableColumnList : option (list Column);
  has_orderAction : bool;
  orderSelected : option OrderSelected;
  groupableColumnList : option (list (string * string));
  has_groupAction : bool;
  groupSelectedKey : option string;
  groupLabelPrefix : option string
}.

Record Button : Type := {
  icon : string;
  handleOnClick : Handler
}.

Record DropdownItem : Type := {
  action : Handler;
  item_label : string;
  style : option string
}.

Record Dropdown : Type := {
  button_icon : string;
  operations : list DropdownItem
}.

(** A non-empty string is truthy. *)
Definition truthy_string (s : option string) : bool :=
  match s with
  | Some s => negb (String.eqb s "")
  | None => false
  end.

(** [getSelectedStyle(currentKey, selectedKey)] *)
Definition getSelectedStyle (currentKey selectedKey : string) : string :=
  if String.eqb currentKey selectedKey then " selected " else "".

(** [getSelectionObjectIcon()] *)
Definition getSelectionObjectIcon (props : ActionBarProps) : string :=
  match selectionStatus props with
  | Some none => "check_box_outline_blank"
  | Some selected => "check_box"
  | _ => "indeterminate_check_box"
  end.

(** The status [onIconClick] asks for. *)
Definition newSelectionStatus (props : ActionBarProps) : Status :=
  match selectionStatus props with
  | Some none => selected
  | _ => none
  end.

(** [getSelectionObject()]: the button, and whether a warning is logged. *)
Definition getSelectionObject (props : ActionBarProps) : option Button * bool :=
  if hasSelection props && has_selectionAction props then
    (Some {| icon := getSelectionObjectIcon props;
             handleOnClick := selectionAction (newSelectionStatus props) |}, false)
  else if hasSelection props then (None, true)
  else (None, false).

(** [key + order], a string and a boolean. *)
Definition key_order (c : Column) : string :=
  key c ++ (if order c then "true" else "false").

(** [getOrderObject()] *)
Definition getOrderObject (props : ActionBarProps) : option Dropdown :=
  match orderableColumnList props, orderSelected props with
  | Some orderableColumnList, Some orderSelected =>
      match selected_key orderSelected, selected_order orderSelected with
      | Some selectedKey, Some selectedOrder =>
          if negb (String.eqb selectedKey "") && has_orderAction props then
            Some {| button_icon := "sort_by_alpha";
                    operations :=
                      (fun description =>
                         {| action := orderAction (key description) (order description);
                            item_label := label description;
                            style := Some (getSelectedStyle (key_order description)
                                             (selectedKey ++
                                              (if selectedOrder then "asc" else "desc"))) |})
                      <$> orderableColumnList |}
          else None
      | _, _ => None
      end
  | _, _ => None
  end.

Section WithTranslate.

(** [i18n.t] *)
Variable translate : string -> string.

(** [getGroupObject()]: the dropdown, and whether a warning is logged. *)
Definition getGroupObject (props : ActionBarProps) : option Dropdown * bool :=
  let groupLabelPrefix := default "" (groupLabelPrefix props) in
  match groupSelectedKey props, groupableColumnList props with
  | Some groupSelectedKey, Some groupableColumnList =>
      if hasGrouping props && negb (String.eqb groupSelectedKey "")
         && has_groupAction props then
        (Some {| button_icon := "folder_open";
                 operations :=
                   ((fun '(key, label) =>
                       {| action := groupAction (Some key);
                          item_label := translate (groupLabelPrefix ++ label);
                          style := Some (getSelectedStyle key groupSelectedKey) |})
                    <$> groupableColumnList)
                   ++ [{| action := groupAction None;
                          item_label := translate "list.actionBar.ungroup";
                          style := None |}] |}, false)
      else (None, hasGrouping props)
  | _, _ => (None, hasGrouping props)
  end.

End WithTranslate.

End ActionBar.

(** ** The list component

    The second file kept under [list/components/action-bar.tsx] (lines 125
    to 314).  Widths are whole numbers of pixels. *)

Module ListComponent.

(** ["list" | "mosaic"] *)
Inductive Mode : Type := list_mode | mosaic_mode.

Record Mosaic : Type := {
  width : nat;
  height : nat
}.

(** [context.listWrapper] *)
Record ListWrapper : Type := {
  wrapper_mosaic : option Mosaic;
  wrapper_mode : option Mode;
  wrapper_addItemHandler : bool
}.

(** [ListProps]; for a handler or a component, whether it is supplied. *)
Record ListProps : Type := {
  addItemHandler_prop : bool;
  DetailComponent : bool;
  hideAddItemHandler : bool;
  LineComponent : bool;
  mode_prop : option Mode;
  mosaic_prop : option Mosaic;
  MosaicComponent : bool;
  itemKey : bool
}.

(** The observable state of the component. *)
Record state : Type := {
  byLine : nat;
  displayedIdx : option nat
}.

(** An element of the rendered list. *)
Inductive Item : Type :=
| Line (idx : nat)
| Detail (idx : nat)
| MosaicAdd.

Inductive Error : Type :=
| NoComponent       (* "Aucun component de ligne ou de mosaïque n'a été précisé." *)
| TypeError.

Section Getters.
Variable props : ListProps.
Variable listWrapper : option ListWrapper.

(** [get addItemHandler()] *)
Definition addItemHandler : bool :=
  addItemHandler_prop props
  || match listWrapper with
     | Some w => wrapper_addItemHandler w
     | None => false
     end.

(** [get mode()] *)
Definition mode : Mode :=
  match mode_prop props with
  | Some m => m
  | None =>
      match listWrapper ≫= wrapper_mode with
      | Some m => m
      | None => if MosaicComponent props && negb (LineComponent props)
                then mosaic_mode else list_mode
      end
  end.

(** [get mosaic()] *)
Definition mosaic : option Mosaic :=
  match mode with
  | list_mode => None
  | mosaic_mode =>
      match mosaic_prop props with
      | Some m => Some m
      | None =>
          match listWrapper ≫= wrapper_mosaic with
          | Some m => Some m
          | None => Some {| width := 200; height := 200 |}
          end
      end
  end.

(** [get isAddItemShown()] *)
Definition isAddItemShown : bool :=
  negb (hideAddItemHandler props) && addItemHandler
  && match mode with mosaic_mode => true | list_mode => false end
  && bool_decide (is_Some mosaic).

(** [updateByLine()], for an element [clientWidth] pixels wide. *)
Definition updateByLine (clientWidth : nat) (s : state) : state :=
  {| byLine :=
       match mode, mosaic with
       | mosaic_mode, Some m => clientWidth / (width m + 10)
       | _, _ => 1
       end;
     displayedIdx := displayedIdx s |}.

(** [onLineClick(idx)] *)
Definition onLineClick (idx : nat) (s : state) : state :=
  {| byLine := byLine s;
     displayedIdx := if decide (displayedIdx s = Some idx) then None else Some idx |}.

(** [items.splice(idx, 0, x)] *)
Definition splice {A : Type} (idx : nat) (x : A) (items : list A) : list A :=
  take idx items ++ x :: drop idx items.

(** Where [renderLines()] puts the detail among the lines; [idx % byLine]
    is [NaN] when [byLine] is 0, and [splice] then starts at 0. *)
Definition detailIndex (s : state) (displayed : nat) : nat :=
  let idx :=
    displayed
    + (if isAddItemShown || match mode with list_mode => true | mosaic_mode => false end
       then 1 else 0) in
  match mode with
  | list_mode => idx
  | mosaic_mode =>
      match byLine s with
      | 0 => 0
      | S _ => idx + (byLine s - idx mod byLine s - (if isAddItemShown then 1 else 0))
      end
  end.

(** [renderLines()], for [n] displayed items. *)
Definition renderLines (s : state) (n : nat) : Error + list Item :=
  let component :=
    match mode with
    | list_mode => LineComponent props
    | mosaic_mode => MosaicComponent props
    end in
  if negb component then inl NoComponent
  else
    let items := Line <$> seq 0 n in
    let with_detail :=
      match displayedIdx s with
      | Some displayed =>
          if DetailComponent props then
            if itemKey props && bool_decide (n <= displayed)
            then inl TypeError            (* item[itemKey] on no item *)
            else inr (splice (detailIndex s displayed) (Detail displayed) items)
          else inr items
      | None => inr items
      end in
    match with_detail with
    | inl e => inl e
    | inr items => inr (if isAddItemShown then MosaicAdd :: items else items)
    end.

End Getters.

End ListComponent.

(** ** The panel ([components/panel/index.tsx]) and the props a form gives it *)

Module Panel.

(** ["both" | "bottom" | "top" | "none"] *)
Inductive Position : Type := both | bottom | top | no_buttons.

(** The members of [PanelProps] that decide the layout.  A handler is not
    looked at by the panel, only handed to the buttons. *)
Record PanelProps : Type := {
  blockName : option string;
  buttonsPosition : option Position;     (* "Par défaut : top" *)
  hideOnScrollspy : bool;
  hideProgressBar : bool;
  loading : bool;
  saving : bool;
  showHelp : bool;
  title : option string;
  editing : bool
}.

(** The [<h3>] of the panel: its title and, with [showHelp], the block name
    of the help button. *)
Record Heading : Type := {
  heading_title : string;
  help : option string
}.

Record Rendered : Type := {
  busy : bool;
  spied : bool;                          (* carries [data-spy] *)
  progressBar : bool;
  top_bar : option (option Heading * bool);   (* the heading, the buttons *)
  bottom_buttons : bool
}.

Section Render.

(** [i18next.t] *)
Variable translate : string -> string.

(** [s => snakeCase(s).split("_")[0]] *)
Variable firstWord : string -> string.

(** [Panel.render()] *)
Definition render (props : PanelProps) : Rendered :=
  let buttonsPosition := default top (buttonsPosition props) in
  let areButtonsTop :=
    match buttonsPosition with top | both => true | _ => false end in
  let areButtonsDown :=
    match buttonsPosition with bottom | both => true | _ => false end in
  let title :=
    match title props with
    | Some t => if String.eqb t "" then None else Some t
    | None => None
    end in
  {| busy := loading props || saving props;
     spied := negb (hideOnScrollspy props);
     progressBar := negb (hideProgressBar props) && (loading props || saving props);
     top_bar :=
       if bool_decide (is_Some title) || areButtonsTop then
         Some (match title with
               | Some t =>
                   Some {| heading_title := translate t;
                           help :=
                             if showHelp props then
                               Some (match blockName props with
                                     | Some b => if String.eqb b "" then firstWord (translate t) else b
                                     | None => firstWord (translate t)
                                     end)
                             else None |}
               | None => None
               end, areButtonsTop)
       else None;
     bottom_buttons := areButtonsDown |}.

End Render.

(** [AutoForm.getPanelProps()], in the revision with [editingMap]; the
    other members of the panel are left to their defaults. *)
Definition getPanelProps `{Store} (f : AutoForm.state) : PanelProps :=
  {| blockName := None; buttonsPosition := None; hideOnScrollspy := false;
     hideProgressBar := false;
     loading := AutoForm.isLoading f;
     saving := false;
     showHelp := false;
     title := None;
     editing := form_isEdit (AutoForm.entity f) |}.

End Panel.

(** ** More sample inputs *)

Module MoreSamples.

#[local] Existing Instance Sample.store.

(** A form in edit mode with nothing to load, and the page that displays
    it. *)
Definition draft : AutoForm.state :=
  {| AutoForm.forceErrorDisplay := false;
     AutoForm.entity := {| view := Sample.ann; sourceNode := Sample.ann;
                           form_isEdit := true; subscribed := false |};
     AutoForm.services := {| AutoForm.getLoadParams := None;
                             AutoForm.load_service := false |};
     AutoForm.isLoading := false;
     AutoForm.i18nPrefix := "focus";
     AutoForm.messages := [] |}.

Definition draft_page : AutoForm.World :=
  AutoForm.componentWillMount (hooks := AutoForm.default_hooks) "form-2" draft
    AutoForm.no_form.

(** A page with two forms: the editing form, and a form that is mounted in
    consultation and then put in edit mode. *)
Definition two_forms : AutoForm.World :=
  AutoForm.componentWillMount (hooks := AutoForm.default_hooks) "form-2"
    Sample.unparameterised Sample.one_form.

Definition both_editing : AutoForm.World :=
  AutoForm.action "form-2" (AutoForm.toggleEdit true Sample.unparameterised) two_forms.

(** The options object a caller keeps, with a list of its own. *)
Definition german_options : FieldOptions :=
  {| onChange := None; isEdit := None; innerRef := false;
     values := Some [ {[ "code" := Js.Str "FR"; "label" := Js.Str "Frankreich" ]} ];
     SelectComponent := None; valueKey := None; labelKey := None |}.

(** Whether the sample view model has the member. *)
Definition has_member (v : gmap string Js.value) (name : string) : bool :=
  bool_decide (is_Some (v !! name)).

(** A delete service that resolves, and one that rejects. *)
Definition deleted : LegacyForm.DeleteCall -> outcome Js.value :=
  fun _ => Resolved (Js.Bool true).

Definition not_deleted : LegacyForm.DeleteCall -> outcome Js.value :=
  fun _ => Rejected Nullish.

(** The field [email] of the person. *)
Definition email : EntityField :=
  {| field_entry := {| domain := "DO_CODE"; isRequired := false;
                       name := "email"; translationKey := "email" |};
     value := Js.Str "ann" |}.

(** A field without a value, and a list whose second element has no code. *)
Definition unset : EntityField :=
  {| field_entry := {| domain := "DO_CODE"; isRequired := false;
                       name := "country"; translationKey := "person.country" |};
     value := Js.Undefined |}.

Definition with_codeless : ReferenceList :=
  {| items := [ {[ "code" := Js.Str "DE"; "label" := Js.Str "Germany" ]};
                {[ "label" := Js.Str "Elsewhere" ]} ];
     ref_valueKey := None; ref_labelKey := None |}.

(** A field whose value is not a number. *)
Definition not_a_number : EntityField :=
  {| field_entry := {| domain := "DO_CODE"; isRequired := false;
                       name := "rate"; translationKey := "person.rate" |};
     value := Js.NaN |}.

(** A select over the countries, and one over values with numeric codes. *)
Definition country_select : SelectInput.SelectProps :=
  {| SelectInput.labelKey := "label"; SelectInput.valueKey := "code";
     SelectInput.values := Sample.countries; SelectInput.value := Js.Undefined;
     SelectInput.hasUndefined := None; SelectInput.i18nPrefix := None;
     SelectInput.unSelectedLabel := None |}.

Definition ranks : list Js.object :=
  [ {[ "code" := Js.Num 1; "label" := Js.Str "First" ]};
    {[ "code" := Js.Num 2; "label" := Js.Str "Second" ]} ].

Definition rank_select : SelectInput.SelectProps :=
  {| SelectInput.labelKey := "label"; SelectInput.valueKey := "code";
     SelectInput.values := ranks; SelectInput.value := Js.Num 1;
     SelectInput.hasUndefined := None; SelectInput.i18nPrefix := None;
     SelectInput.unSelectedLabel := None |}.

(** The field once the user has picked the rank [1]. *)
Definition rank_picked : EntityField :=
  {| field_entry := {| domain := "DO_CODE"; isRequired := false;
                       name := "rank"; translationKey := "person.rank" |};
     value := Js.Str "1" |}.

(** An action bar sorted by name, ascending, and grouped by country. *)
Definition bar : ActionBar.ActionBarProps :=
  {| ActionBar.hasSelection := true;
     ActionBar.hasGrouping := true;
     ActionBar.selectionStatus := Some ActionBar.partial;
     ActionBar.has_selectionAction := true;
     ActionBar.orderableColumnList :=
       Some [ {| ActionBar.key := "name"; ActionBar.label := "Name"; ActionBar.order := true |};
              {| ActionBar.key := "name"; ActionBar.label := "Name, reversed";
                 ActionBar.order := false |} ];
     ActionBar.has_orderAction := true;
     ActionBar.orderSelected :=
       Some {| ActionBar.selected_key := Some "name"; ActionBar.selected_order := Some true |};
     ActionBar.groupableColumnList := Some [("country", "Country"); ("city", "City")];
     ActionBar.has_groupAction := true;
     ActionBar.groupSelectedKey := Some "country";
     ActionBar.groupLabelPrefix := None |}.

(** The same bar with no group selected. *)
Definition ungrouped_bar : ActionBar.ActionBarProps :=
  {| ActionBar.hasSelection := true;
     ActionBar.hasGrouping := true;
     ActionBar.selectionStatus := Some ActionBar.partial;
     ActionBar.has_selectionAction := true;
     ActionBar.orderableColumnList := None;
     ActionBar.has_orderAction := true;
     ActionBar.orderSelected := None;
     ActionBar.groupableColumnList := Some [("country", "Country"); ("city", "City")];
     ActionBar.has_groupAction := true;
     ActionBar.groupSelectedKey := None;
     ActionBar.groupLabelPrefix := None |}.

Definition translate (s : string) : string := "t:" ++ s.

(** A list of lines with details, and a mosaic of tiles 190 pixels wide with
    a tile to add an item. *)
Definition lines : ListComponent.ListProps :=
  {| ListComponent.addItemHandler_prop := false;
     ListComponent.DetailComponent := true;
     ListComponent.hideAddItemHandler := false;
     ListComponent.LineComponent := true;
     ListComponent.mode_prop := None;
     ListComponent.mosaic_prop := None;
     ListComponent.MosaicComponent := false;
     ListComponent.itemKey := true |}.

Definition tiles : ListComponent.ListProps :=
  {| ListComponent.addItemHandler_prop := true;
     ListComponent.DetailComponent := true;
     ListComponent.hideAddItemHandler := false;
     ListComponent.LineComponent := false;
     ListComponent.mode_prop := None;
     ListComponent.mosaic_prop := Some {| ListComponent.width := 190; ListComponent.height := 190 |};
     ListComponent.MosaicComponent := true;
     ListComponent.itemKey := true |}.

(** The second item is open; the element is 640 pixels wide, or hidden. *)
Definition second_open : ListComponent.state :=
  {| ListComponent.byLine := 1; ListComponent.displayedIdx := Some 1 |}.

Definition wide : ListComponent.state :=
  ListComponent.updateByLine tiles None 640 second_open.

Definition hidden : ListComponent.state :=
  ListComponent.updateByLine tiles None 0 second_open.

End MoreSamples.

(** * Properties *)

(** ** Running an [async] method *)

Section RunFacts.
Context {S C D : Type}.
Implicit Types (answer : C -> outcome D) (meanwhile : S -> S).

Lemma run_Return answer meanwhile (s : S) :
  run answer meanwhile (Return s) = (s, None, []).
Proof. reflexivity. Qed.

Lemma run_Throw answer meanwhile (s : S) e :
  run answer meanwhile (Throw s e) = (s, Some e, []).
Proof. reflexivity. Qed.

Lemma run_Await answer meanwhile (s : S) c k :
  run answer meanwhile (Await s c k) =
  let r := run answer meanwhile (k (answer c) (meanwhile s)) in
  (final r, thrown r, c :: calls r).
Proof.
  simpl. destruct (run answer meanwhile (k (answer c) (meanwhile s))) as [[s' e] cs].
  reflexivity.
Qed.
End RunFacts.

(** ** The form with [editingMap]: [save] and [load] *)

Section AutoFormFacts.
Context `{Store} {hooks : AutoForm.Hooks}.
Import AutoForm.
Implicit Types (f : state) (answer : Call -> outcome Data) (meanwhile : state -> state).

(** The three ways [save] goes. *)
Lemma save_invalid f :
  isValid (entity f) = false ->
  save f = Return (set_forceErrorDisplay true f).
Proof. intros Hv. unfold save. simpl. rewrite Hv. reflexivity. Qed.

Lemma save_valid f :
  isValid (entity f) = true ->
  exists k,
    save f = Await (set_isLoading true (set_forceErrorDisplay true f))
               (CallSave (toFlatValues (view (entity f)))) k /\
    (forall data f3,
        k (Resolved data) f3 =
        Return (onFormSaved
                  (set_entity (sourceNode_set data (set_form_isEdit false (entity f3)))
                     (set_isLoading false f3)))) /\
    (forall e f3, k (Rejected e) f3 = Return (set_isLoading false f3)).
Proof.
  intros Hv. unfold save. simpl. rewrite Hv.
  eexists. split; [reflexivity|]. split; reflexivity.
Qed.

(** The service calls of one [save()]. *)
Lemma save_calls f answer meanwhile :
  calls (run answer meanwhile (save f)) =
  if isValid (entity f)
  then [CallSave (toFlatValues (view (entity f)))]
  else [].
Proof.
  destruct (isValid (entity f)) eqn:Hv.
  - destruct (save_valid f Hv) as (k & -> & Hres & Hrej).
    rewrite run_Await. simpl.
    destruct (answer _); [rewrite Hres | rewrite Hrej]; reflexivity.
  - rewrite (save_invalid f Hv). reflexivity.
Qed.

(** C1. One invocation of [save()] calls the save service exactly once
    when the view model is valid; when it is not, no service is called and
    the form is left as it was, but for [forceErrorDisplay], now true. *)
Theorem save_gating f answer meanwhile :
  let r := run answer meanwhile (save f) in
  if isValid (entity f)
  then calls r = [CallSave (toFlatValues (view (entity f)))]
  else calls r = [] /\ thrown r = None /\ final r = set_forceErrorDisplay true f.
Proof.
  simpl. pose proof (save_calls f answer meanwhile) as Hc.
  destruct (isValid (entity f)) eqn:Hv; [exact Hc|].
  rewrite (save_invalid f Hv). repeat split.
Qed.

(** A rejected save, whatever the rejection carries. *)
Lemma save_rejected f answer meanwhile e :
  isValid (entity f) = true ->
  answer (CallSave (toFlatValues (view (entity f)))) = Rejected e ->
  run answer meanwhile (save f) =
  (set_isLoading false (meanwhile (set_isLoading true (set_forceErrorDisplay true f))),
   None,
   [CallSave (toFlatValues (view (entity f)))]).
Proof.
  intros Hv Ha. destruct (save_valid f Hv) as (k & -> & _ & Hrej).
  rewrite run_Await, Ha, Hrej. reflexivity.
Qed.

(** C3. When the view model is valid and the save service resolves with
    [data], [save()] has set [isLoading] and the edit flag to false and
    has written [data] onto the source node with [set], in the state [f6]
    on which it then fires [onFormSaved]. *)
Theorem save_resolved f answer meanwhile data :
  isValid (entity f) = true ->
  answer (CallSave (toFlatValues (view (entity f)))) = Resolved data ->
  let f3 := meanwhile (set_isLoading true (set_forceErrorDisplay true f)) in
  exists f6,
    run answer meanwhile (save f) =
      (onFormSaved f6, None, [CallSave (toFlatValues (view (entity f)))]) /\
    sourceNode (entity f6) = set data (sourceNode (entity f3)) /\
    form_isEdit (entity f6) = false /\
    isLoading f6 = false /\
    forceErrorDisplay f6 = forceErrorDisplay f3 /\
    messages f6 = messages f3.
Proof.
  intros Hv Ha f3. destruct (save_valid f Hv) as (k & -> & Hres & _).
  eexists. split.
  - rewrite run_Await, Ha, Hres. reflexivity.
  - repeat split.
Qed.

(** The ways [load] goes. *)
Lemma load_without_service f :
  getLoadParams (services f) = None \/ load_service (services f) = false ->
  load f = Return f.
Proof.
  intros [Hg | Hl]; unfold load.
  - rewrite Hg. reflexivity.
  - rewrite Hl. destruct (getLoadParams (services f)); reflexivity.
Qed.

Lemma load_with_params f g params :
  getLoadParams (services f) = Some g ->
  load_service (services f) = true ->
  g () = Some params ->
  exists k,
    load f = Await (set_entity (sourceNode_clear (entity f)) (set_isLoading true f))
               (CallLoad params) k /\
    (forall data f3,
        k (Resolved data) f3 =
        Return (onFormLoaded
                  (set_isLoading false
                     (set_entity (sourceNode_set data (entity f3)) f3)))) /\
    (forall e f3, k (Rejected e) f3 = Throw f3 (ServiceError e)).
Proof.
  intros Hg Hl Hp. unfold load. rewrite Hg, Hl, Hp.
  eexists. split; [reflexivity|]. split; reflexivity.
Qed.

(** C4. With [getLoadParams] and [load] supplied: when the parameters are
    defined, [load()] suspends with [isLoading] true and the source node
    cleared, on one call of the load service with these parameters; when
    the service resolves with [data], [data] is set onto the source node
    and [isLoading] is false in the state [f5] on which [onFormLoaded] is
    then fired.  When the parameters are undefined, [load()] returns at
    once, with the form untouched and no call made. *)
Theorem load_lifecycle f g answer meanwhile :
  getLoadParams (services f) = Some g ->
  load_service (services f) = true ->
  match g () with
  | Some params =>
      let f2 := state_of (load f) in
      isLoading f2 = true /\
      sourceNode (entity f2) = clear (sourceNode (entity f)) /\
      calls (run answer meanwhile (load f)) = [CallLoad params] /\
      forall data,
        answer (CallLoad params) = Resolved data ->
        exists f5,
          run answer meanwhile (load f) = (onFormLoaded f5, None, [CallLoad params]) /\
          sourceNode (entity f5) = set data (sourceNode (entity (meanwhile f2))) /\
          isLoading f5 = false
  | None => load f = Return f
  end.
Proof.
  intros Hg Hl. destruct (g ()) as [params|] eqn:Hp.
  - destruct (load_with_params f g params Hg Hl Hp) as (k & Hload & Hres & Hrej).
    rewrite Hload. simpl state_of. repeat split.
    + rewrite run_Await. simpl.
      destruct (answer _); [rewrite Hres | rewrite Hrej]; reflexivity.
    + intros data Ha. eexists. split.
      * rewrite run_Await, Ha, Hres. reflexivity.
      * split; reflexivity.
  - unfold load. rewrite Hg, Hl, Hp. reflexivity.
Qed.

(** C5. When the load service rejects, [load()] rejects with the same
    reason and touches nothing: [isLoading], set to true before the call,
    stays as the rest of the program leaves it.  Nothing resets it. *)
Theorem load_rejected_keeps_isLoading f g params answer meanwhile e :
  getLoadParams (services f) = Some g ->
  load_service (services f) = true ->
  g () = Some params ->
  answer (CallLoad params) = Rejected e ->
  (forall f', isLoading (meanwhile f') = isLoading f') ->
  let r := run answer meanwhile (load f) in
  final r = meanwhile (state_of (load f)) /\
  thrown r = Some (ServiceError e) /\
  isLoading (final r) = true.
Proof.
  intros Hg Hl Hp Ha Hm.
  destruct (load_with_params f g params Hg Hl Hp) as (k & Hload & _ & Hrej).
  simpl. rewrite Hload, run_Await, Ha, Hrej. simpl. repeat split.
  unfold final. simpl. rewrite Hm. reflexivity.
Qed.

(** C6. [save()] does not look at [isLoading]: called while a save is in
    flight, it sets [forceErrorDisplay] and, when the view model is valid,
    calls the save service again, [isLoading] staying true. *)
Theorem save_while_loading f answer meanwhile :
  isLoading f = true ->
  let r := run answer meanwhile (save f) in
  state_of (save f) = set_forceErrorDisplay true f /\
  if isValid (entity f)
  then calls r = [CallSave (toFlatValues (view (entity f)))]
  else calls r = [].
Proof.
  intros Hl. simpl. split.
  - destruct (isValid (entity f)) eqn:Hv.
    + destruct (save_valid f Hv) as (k & -> & _). simpl.
      destruct f; simpl in *; subst; reflexivity.
    + rewrite (save_invalid f Hv). reflexivity.
  - rewrite save_calls. destruct (isValid (entity f)); reflexivity.
Qed.

End AutoFormFacts.

(** ** The earlier revision *)

Section LegacyFacts.
Context `{Store} {hooks : LegacyAutoForm.Hooks}.
Import LegacyAutoForm.
Implicit Types (f : state) (answer : Call -> outcome Data) (meanwhile : state -> state).

(** [validate()] only writes the [showError] flags. *)
Lemma validate_state f :
  (validate f).1 = set_fields (showErrors (fields f)).1 f.
Proof.
  unfold validate. destruct (showErrors (fields f)) as [fs ok]. simpl.
  destruct ok; reflexivity.
Qed.

(** Save gating in the earlier revision: one call of the save service
    when [validate()] returns true, none when it returns false or throws;
    in the latter cases only the [showError] flags have changed. *)
Lemma legacy_save_gating f answer meanwhile :
  let r := run answer meanwhile (save f) in
  match (validate f).2 with
  | Some true => calls r = [CallSave (toFlatValues (entity f))]
  | Some false => r = ((validate f).1, None, [])
  | None => r = ((validate f).1, Some TypeError, [])
  end.
Proof.
  simpl. unfold save.
  pose proof (validate_state f) as Hs.
  destruct (validate f) as [f1 [[|]|]]; simpl in *; try reflexivity.
  rewrite Hs. simpl.
  destruct (answer _) as [data|[|[fs|]]]; reflexivity.
Qed.

(** A rejected save in the earlier revision: [isLoading] is reset, and a
    [fields] member of the rejection becomes the [errors] of the form,
    whatever [errors] held before. *)
Lemma legacy_save_rejected f answer meanwhile fs :
  (validate f).2 = Some true ->
  answer (CallSave (toFlatValues (entity f))) = Rejected (ErrorObject fs) ->
  let f3 := meanwhile (set_isLoading true (validate f).1) in
  run answer meanwhile (save f) =
  (match fs with
   | Some fields => set_errors fields (set_isLoading false f3)
   | None => set_isLoading false f3
   end, None, [CallSave (toFlatValues (entity f))]).
Proof.
  intros Hv Ha. simpl. unfold save.
  pose proof (validate_state f) as Hs.
  destruct (validate f) as [f1 r]; simpl in *. subst r.
  rewrite Hs in *. simpl. simpl in Ha. rewrite Ha. destruct fs; reflexivity.
Qed.

(** A resolved save in the earlier revision. *)
Lemma legacy_save_resolved f answer meanwhile data :
  (validate f).2 = Some true ->
  answer (CallSave (toFlatValues (entity f))) = Resolved data ->
  let f3 := meanwhile (set_isLoading true (validate f).1) in
  run answer meanwhile (save f) =
  (onFormSaved
     (storeData_set data
        (set_isEdit false (set_isLoading false (emit (SuccessMessage "detail.saved") f3)))),
   None, [CallSave (toFlatValues (entity f))]).
Proof.
  intros Hv Ha. simpl. unfold save.
  pose proof (validate_state f) as Hs.
  destruct (validate f) as [f1 r]; simpl in *. subst r.
  rewrite Hs in *. simpl. simpl in Ha. rewrite Ha. reflexivity.
Qed.

(** [load()] in the earlier revision does not clear the store before the
    call, and leaves [isLoading] true when the service rejects. *)
Lemma legacy_load f g params :
  getLoadParams (services f) = Some g ->
  load_service (services f) = true ->
  g () = Some params ->
  exists k,
    load f = Await (set_isLoading true f) (CallLoad params) k /\
    (forall data f2,
        k (Resolved data) f2 =
        Return (onFormLoaded (set_isLoading false (storeData_set data f2)))) /\
    (forall e f2, k (Rejected e) f2 = Throw f2 (ServiceError e)).
Proof.
  intros Hg Hl Hp. unfold load. rewrite Hg, Hl, Hp.
  eexists. split; [reflexivity|]. split; reflexivity.
Qed.

(** [toggleEdit] in the earlier revision: the flag is the form's own, and
    the application store is told of the change of mode. *)
Lemma legacy_toggleEdit f :
  toggleEdit true f = emit (ChangeMode "edit" "consult") (set_isEdit true f) /\
  toggleEdit false f =
    emit (ChangeMode "consult" "edit")
      (set_entity (reset (storeData f) (entity f)) (set_isEdit false f)).
Proof. split; reflexivity. Qed.

End LegacyFacts.

(** ** A rejected save, in both revisions *)

Section RejectedSave.
Context `{Store} {hooks : AutoForm.Hooks} {legacy_hooks : LegacyAutoForm.Hooks}.

(** C2, as amended.  When the save service rejects, [save()] swallows the
    rejection and ends with [isLoading] false and with the edit flag and the
    values of the view model as they were when the promise settled.  The
    form with [forceErrorDisplay] does not look at the rejection: its final
    state is the state [f3] at that moment with [isLoading] reset, whatever
    the rejection carries.  The earlier form, when the error object has a
    [fields] member, takes it as its [errors], in place of what [errors]
    held; otherwise [errors] is left as it was. *)
Theorem save_rejected_recovery :
  (forall (f : AutoForm.state) answer meanwhile e,
      isValid (AutoForm.entity f) = true ->
      answer (CallSave (toFlatValues (view (AutoForm.entity f)))) = Rejected e ->
      let f3 := meanwhile (AutoForm.set_isLoading true
                             (AutoForm.set_forceErrorDisplay true f)) in
      let r := run answer meanwhile (AutoForm.save f) in
      final r = AutoForm.set_isLoading false f3 /\
      thrown r = None /\
      AutoForm.isLoading (final r) = false /\
      AutoForm.entity (final r) = AutoForm.entity f3) /\
  (forall (f : LegacyAutoForm.state) answer meanwhile fields,
      (LegacyAutoForm.validate f).2 = Some true ->
      answer (CallSave (toFlatValues (LegacyAutoForm.entity f))) =
        Rejected (ErrorObject fields) ->
      let f3 := meanwhile (LegacyAutoForm.set_isLoading true
                             (LegacyAutoForm.validate f).1) in
      let r := run answer meanwhile (LegacyAutoForm.save f) in
      thrown r = None /\
      LegacyAutoForm.isLoading (final r) = false /\
      LegacyAutoForm.isEdit (final r) = LegacyAutoForm.isEdit f3 /\
      LegacyAutoForm.entity (final r) = LegacyAutoForm.entity f3 /\
      LegacyAutoForm.errors (final r) =
        match fields with
        | Some messages => messages
        | None => LegacyAutoForm.errors f3
        end).
Proof.
  split.
  - intros f answer meanwhile e Hv Ha. simpl.
    rewrite (save_rejected f answer meanwhile e Hv Ha). repeat split.
  - intros f answer meanwhile fields Hv Ha. simpl.
    rewrite (legacy_save_rejected f answer meanwhile fields Hv Ha).
    destruct fields; repeat split.
Qed.

End RejectedSave.

(** ** The registry of displayed forms *)

Lemma existsb_Permutation {A : Type} (p : A -> bool) (l1 l2 : list A) :
  l1 ≡ₚ l2 -> existsb p l1 = existsb p l2.
Proof.
  induction 1 as [|x l l' _ IH|x y l|l l' l'' _ IH1 _ IH2]; simpl.
  - reflexivity.
  - rewrite IH. reflexivity.
  - destruct (p x), (p y); reflexivity.
  - congruence.
Qed.

Lemma existsb_foldr_orb (l : list bool) :
  existsb (fun x => x) l = foldr orb false l.
Proof. induction l as [|x l IH]; simpl; [reflexivity | rewrite IH; reflexivity]. Qed.

Lemma snd_prod_map {K A B : Type} (g : A -> B) (l : list (K * A)) :
  (prod_map id g <$> l).*2 = g <$> l.*2.
Proof. induction l as [|[k x] l IH]; csimpl; [reflexivity | rewrite IH; reflexivity]. Qed.

Section RegistryFacts.
Context `{Store} {hooks : AutoForm.Hooks}.
Import AutoForm.
Implicit Types (f : state) (w : World).

Lemma consistent_no_form : consistent no_form.
Proof. unfold consistent. simpl. rewrite fmap_empty. reflexivity. Qed.

Lemma consistent_mount formId f w :
  consistent w -> consistent (componentWillMount formId f w).
Proof.
  unfold consistent, componentWillMount, action, updateApplicationStore. simpl.
  intros ->. rewrite insert_insert_eq, fmap_insert. reflexivity.
Qed.

Lemma consistent_action formId f w :
  consistent w -> consistent (action formId f w).
Proof.
  unfold consistent, action, updateApplicationStore. simpl.
  intros ->. rewrite fmap_insert. reflexivity.
Qed.

Lemma consistent_unmount formId w :
  consistent w -> consistent (componentWillUnmount formId w).
Proof.
  unfold consistent, componentWillUnmount. simpl.
  intros ->. rewrite fmap_delete. reflexivity.
Qed.

Lemma consistent_step w w' : step w w' -> consistent w -> consistent w'.
Proof.
  destruct 1; auto using consistent_mount, consistent_action, consistent_unmount.
Qed.

Lemma consistent_reachable w : reachable w -> consistent w.
Proof.
  unfold reachable. intros Hr.
  apply (rtc_ind_r (R := step) (fun w => consistent w) no_form); trivial.
  - apply consistent_no_form.
  - intros ? ? _ Hs IH. exact (consistent_step _ _ Hs IH).
Qed.

Lemma consistent_isOneEdit w :
  consistent w -> isOneEdit w = foldr orb false (edit_flags w).
Proof.
  unfold consistent, isOneEdit, edit_flags. intros ->.
  rewrite <- existsb_foldr_orb. apply existsb_Permutation.
  rewrite map_to_list_fmap, snd_prod_map. reflexivity.
Qed.

Lemma mount_adds formId f w :
  editingMap (componentWillMount formId f w) !! formId = Some (form_isEdit (entity f)).
Proof.
  unfold componentWillMount, action, updateApplicationStore. simpl.
  rewrite lookup_insert_eq. f_equal.
  unfold load. simpl.
  destruct (getLoadParams (services f)) as [g|]; [|reflexivity].
  destruct (load_service (services f)); [|reflexivity].
  destruct (g ()); reflexivity.
Qed.

Lemma unmount_removes formId w :
  editingMap (componentWillUnmount formId w) !! formId = None /\
  displayed (componentWillUnmount formId w) !! formId = None.
Proof. unfold componentWillUnmount. simpl. rewrite !lookup_delete_eq. auto. Qed.

Lemma mount_registry formId f w :
  editingMap (componentWillMount formId f w)
  = <[formId := form_isEdit (entity f)]> (editingMap w).
Proof.
  unfold componentWillMount, action, updateApplicationStore. simpl.
  rewrite insert_insert_eq. f_equal.
  unfold load. simpl.
  destruct (getLoadParams (services f)) as [g|]; [|reflexivity].
  destruct (load_service (services f)); [|reflexivity].
  destruct (g ()); reflexivity.
Qed.

(** What React has mounted is what the program displays, and the page is
    one the program can reach. *)
Lemma page_invariant ids w :
  page ids w -> dom (displayed w) = ids /\ reachable w.
Proof.
  induction 1 as [|ids w formId f Hp [IHd IHr] Hnew
                  |ids w formId f f' Hp [IHd IHr] Hin Hd Ht
                  |ids w formId Hp [IHd IHr] Hin].
  - split; [apply dom_empty_L | apply rtc_refl].
  - split.
    + unfold componentWillMount, action. simpl. rewrite dom_insert_L, IHd. reflexivity.
    + apply (rtc_r _ w); [exact IHr|]. apply step_mount.
      apply not_elem_of_dom. rewrite IHd. exact Hnew.
  - split.
    + unfold action. simpl. rewrite dom_insert_L, IHd.
      apply subseteq_union_1_L, singleton_subseteq_l, Hin.
    + apply (rtc_r _ w); [exact IHr|]. exact (step_action formId f f' w Hd Ht).
  - split.
    + unfold componentWillUnmount. simpl. rewrite dom_delete_L, IHd. reflexivity.
    + apply (rtc_r _ w); [exact IHr|]. apply step_unmount.
Qed.

Lemma isOneEdit_true w :
  isOneEdit w = true <-> exists formId, editingMap w !! formId = Some true.
Proof.
  unfold isOneEdit. rewrite existsb_exists. split.
  - intros (x & Hin & Hx). simpl in Hx. subst x.
    apply list_elem_of_In, list_elem_of_fmap in Hin.
    destruct Hin as ([k v] & Hv & Hel). simpl in Hv. subst v.
    exists k. apply elem_of_map_to_list. exact Hel.
  - intros (k & Hk). exists true. split; [|reflexivity].
    apply list_elem_of_In, list_elem_of_fmap. exists (k, true).
    split; [reflexivity|]. apply elem_of_map_to_list. exact Hk.
Qed.

Lemma some_true_insert (m : gmap string bool) k b :
  (exists j, <[k := b]> m !! j = Some true) <->
  b = true \/ exists j, j ≠ k /\ m !! j = Some true.
Proof.
  split.
  - intros (j & Hj). destruct (decide (j = k)) as [->|Hne].
    + rewrite lookup_insert_eq in Hj. left. congruence.
    + rewrite lookup_insert_ne in Hj by auto. right. eauto.
  - intros [->|(j & Hne & Hj)].
    + exists k. apply lookup_insert_eq.
    + exists j. rewrite lookup_insert_ne by auto. exact Hj.
Qed.

Lemma some_true_delete (m : gmap string bool) k :
  (exists j, delete k m !! j = Some true) <->
  exists j, j ≠ k /\ m !! j = Some true.
Proof.
  split.
  - intros (j & Hj). destruct (decide (j = k)) as [->|Hne].
    + rewrite lookup_delete_eq in Hj. discriminate.
    + rewrite lookup_delete_ne in Hj by auto. eauto.
  - intros (j & Hne & Hj). exists j. rewrite lookup_delete_ne by auto. exact Hj.
Qed.

(** On a consistent page, the registry has an entry in edit mode beside
    the one of [formId] exactly when another displayed form is in edit
    mode. *)
Lemma other_entry formId w :
  consistent w ->
  (exists j, j ≠ formId /\ editingMap w !! j = Some true) <-> other_editing formId w.
Proof.
  intros Hc. unfold other_editing. rewrite Hc. split.
  - intros (j & Hne & Hj). rewrite lookup_fmap in Hj.
    apply fmap_Some in Hj as (g & Hg & Hflag). exists j, g. auto.
  - intros (j & g & Hne & Hg & Hflag). exists j. split; [exact Hne|].
    rewrite lookup_fmap, Hg. simpl. rewrite Hflag. reflexivity.
Qed.

(** C7. Whatever forms React has mounted, acted on and unmounted, the
    registry has one entry per mounted form and no other, each holding the
    edit flag of its form, and [isOneEdit] is the disjunction of the edit
    flags of the mounted forms.  From there, mounting a form adds its
    entry and its flag to the disjunction; unmounting a form removes its
    entry, so that [isOneEdit] is true exactly when another form is in
    edit mode, whatever the flag of the one that left; [toggleEdit] on a
    displayed form is in the registry and in [isOneEdit] once the action is
    over; and an action that leaves the edit flag alone leaves the registry
    alone. *)
Theorem isOneEdit_registry ids w :
  page ids w ->
  (dom (editingMap w) = ids /\ dom (displayed w) = ids /\
   editingMap w = (fun f => form_isEdit (entity f)) <$> displayed w /\
   isOneEdit w = foldr orb false (edit_flags w)) /\
  (forall formId f, formId ∉ ids ->
     let w' := componentWillMount formId f w in
     editingMap w' = <[formId := form_isEdit (entity f)]> (editingMap w) /\
     isOneEdit w' = form_isEdit (entity f) || isOneEdit w) /\
  (forall formId, formId ∈ ids ->
     let w' := componentWillUnmount formId w in
     editingMap w' !! formId = None /\
     (isOneEdit w' = true <-> other_editing formId w)) /\
  (forall formId f isEdit, displayed w !! formId = Some f ->
     let w' := action formId (toggleEdit isEdit f) w in
     editingMap w' !! formId = Some isEdit /\
     (isOneEdit w' = true <-> isEdit = true \/ other_editing formId w)) /\
  (forall formId f f', displayed w !! formId = Some f ->
     form_isEdit (entity f') = form_isEdit (entity f) ->
     editingMap (action formId f' w) = editingMap w).
Proof.
  intros Hp. destruct (page_invariant ids w Hp) as (Hdom & Hr).
  pose proof (consistent_reachable w Hr) as Hc.
  assert (dom (editingMap w) = ids) as Hreg
    by (rewrite Hc, dom_fmap_L; exact Hdom).
  split; [|split; [|split; [|split]]].
  - repeat split; [exact Hreg | exact Hdom | exact Hc | exact (consistent_isOneEdit w Hc)].
  - intros formId f Hnew w'. subst w'.
    split; [apply mount_registry|].
    apply Bool.eq_iff_eq_true.
    rewrite orb_true_iff, !isOneEdit_true, mount_registry, some_true_insert.
    assert (editingMap w !! formId = None) as Hnone
      by (apply not_elem_of_dom; rewrite Hreg; exact Hnew).
    split; (intros [Hf|(j & Hj)]; [left; exact Hf | right]).
    + destruct Hj as [_ Hj]. eauto.
    + exists j. split; [congruence | exact Hj].
  - intros formId Hin w'. subst w'. split.
    + unfold componentWillUnmount. simpl. apply lookup_delete_eq.
    + rewrite isOneEdit_true. unfold componentWillUnmount. simpl.
      rewrite some_true_delete. apply other_entry, Hc.
  - intros formId f isEdit Hd w'. subst w'.
    assert (form_isEdit (entity (toggleEdit isEdit f)) = isEdit) as Hflag
      by (destruct isEdit; reflexivity).
    unfold action, updateApplicationStore. simpl. rewrite Hflag. split.
    + apply lookup_insert_eq.
    + rewrite isOneEdit_true. simpl. rewrite some_true_insert.
      rewrite (other_entry formId w Hc). reflexivity.
  - intros formId f f' Hd Hflag. unfold action, updateApplicationStore. simpl.
    apply insert_id. rewrite Hc, lookup_fmap, Hd, Hflag. reflexivity.
Qed.

(** C8. [toggleEdit(true)] sets the edit flag of the form node and nothing
    else in the form; [toggleEdit(false)] sets it and resets the view
    model from the source node.  For a displayed form, either way the
    registry entry of the form is the new flag once the action is over,
    and the entries of the other forms are what they were. *)
Theorem toggleEdit_registry formId f w isEdit :
  displayed w !! formId = Some f ->
  let w' := action formId (toggleEdit isEdit f) w in
  toggleEdit true f = set_entity (set_form_isEdit true (entity f)) f /\
  toggleEdit false f = set_entity (entity_reset (set_form_isEdit false (entity f))) f /\
  form_isEdit (entity (toggleEdit isEdit f)) = isEdit /\
  step w w' /\
  editingMap w' !! formId = Some isEdit /\
  displayed w' !! formId = Some (toggleEdit isEdit f) /\
  forall other, other ≠ formId ->
    editingMap w' !! other = editingMap w !! other /\
    displayed w' !! other = displayed w !! other.
Proof.
  intros Hd. simpl.
  assert (form_isEdit (entity (toggleEdit isEdit f)) = isEdit) as Hflag
    by (destruct isEdit; reflexivity).
  repeat split.
  - exact Hflag.
  - apply (step_action formId f); [exact Hd | constructor].
  - unfold action, updateApplicationStore. simpl.
    rewrite lookup_insert_eq, Hflag. reflexivity.
  - unfold action. simpl. apply lookup_insert_eq.
  - unfold action, updateApplicationStore. simpl.
    rewrite lookup_insert_ne by auto. reflexivity.
  - unfold action. simpl. rewrite lookup_insert_ne by auto. reflexivity.
Qed.

End RegistryFacts.

(** ** The field helpers *)

Lemma find_first {A : Type} (p : A -> bool) (l : list A) i x :
  l !! i = Some x ->
  p x = true ->
  (forall j y, j < i -> l !! j = Some y -> p y = false) ->
  Js.find p l = Some x.
Proof.
  revert i. induction l as [|a l IH]; intros i Hi Hp Hbefore.
  - rewrite lookup_nil in Hi. discriminate.
  - destruct i as [|i]; simpl in *.
    + injection Hi as ->. rewrite Hp. reflexivity.
    + rewrite (Hbefore 0 a) by (simpl; auto with lia).
      apply (IH i); auto.
      intros j y Hj Hy. apply (Hbefore (S j) y); [lia | exact Hy].
Qed.

Lemma find_none {A : Type} (p : A -> bool) (l : list A) :
  (forall x, x ∈ l -> p x = false) -> Js.find p l = None.
Proof.
  induction l as [|a l IH]; intros Hall; simpl; [reflexivity|].
  rewrite (Hall a) by apply list_elem_of_here.
  apply IH. intros x Hx. apply Hall. apply list_elem_of_further, Hx.
Qed.

Section HelperFacts.
Variable translate : Js.value -> string.
Implicit Types (ds : Domains) (field : EntityField) (options : FieldOptions).

(** C10. [stringFor] applies the display formatter of the domain (the
    translation when the domain has none) to the label, read under the
    label key (["label"] by default), of the first element of the list
    whose value, read under the value key (["code"] by default), is the
    value of the field, or to the value of the field itself when that
    label is falsy; and to the value of the field when no element has
    it. *)
Theorem stringFor_reference_list ds field (vs : ReferenceList) :
  let format := default translate (displayFormatter (domain_of ds field)) in
  let valueKey := default "code" (ref_valueKey vs) in
  let labelKey := default "label" (ref_labelKey vs) in
  (forall i found,
      items vs !! i = Some found ->
      Js.strict_eq (Js.get found valueKey) (value field) = true ->
      (forall j val, j < i -> items vs !! j = Some val ->
                     Js.strict_eq (Js.get val valueKey) (value field) = false) ->
      Utils.stringFor translate ds field vs =
      format (if Js.truthy (Js.get found labelKey)
              then Js.get found labelKey else value field)) /\
  ((forall val, val ∈ items vs ->
                Js.strict_eq (Js.get val valueKey) (value field) = false) ->
   Utils.stringFor translate ds field vs = format (value field)).
Proof.
  simpl. split.
  - intros i found Hi Heq Hbefore. unfold Utils.stringFor.
    rewrite (find_first _ _ i found Hi Heq Hbefore). reflexivity.
  - intros Hnone. unfold Utils.stringFor.
    rewrite (find_none _ _ Hnone). reflexivity.
Qed.

(** The [stringFor] of the helper file computes the same text from its
    options. *)
Lemma stringFor_revisions_agree ds field (vs : ReferenceList) options :
  values options = Some (items vs) ->
  valueKey options = ref_valueKey vs ->
  labelKey options = ref_labelKey vs ->
  Helpers.stringFor translate ds field options = Utils.stringFor translate ds field vs.
Proof.
  intros Hv Hk Hl. unfold Helpers.stringFor, Utils.stringFor.
  rewrite Hv, Hk, Hl. reflexivity.
Qed.

(** The helpers that leave every domain object as it is. *)
Lemma fieldFor_keeps_domains ds field options :
  domains_after (Helpers.fieldFor ds field options) = ds /\
  domains_after (Helpers.displayFor ds field options) = ds /\
  domains_after (Utils.fieldFor ds field options) = ds.
Proof. repeat split. Qed.

Lemma utils_selectFor_keeps_domains ds field vs options :
  domains_after (Utils.selectFor ds field vs options) = ds.
Proof. reflexivity. Qed.

Lemma helpers_selectFor_domains ds field vs options :
  domains_after (Helpers.selectFor ds field vs options) =
  <[domain (field_entry field) :=
      set_InputComponent (default Select (SelectComponent options)) (domain_of ds field)]> ds.
Proof. reflexivity. Qed.

(** C9. The [selectFor] of the helper file writes the select component
    into the domain object of the field: afterwards every field of that
    domain has it as its [InputComponent]. *)
Theorem selectFor_overwrites_shared_domain ds field other vs options :
  domain (field_entry other) = domain (field_entry field) ->
  let ds' := domains_after (Helpers.selectFor ds field vs options) in
  InputComponent (domain_of ds' other) = Some (default Select (SelectComponent options)).
Proof.
  intros Hshared ds'. unfold ds'. rewrite helpers_selectFor_domains.
  unfold domain_of at 1. rewrite Hshared, lookup_insert_eq. reflexivity.
Qed.

End HelperFacts.

(** * The properties on the sample forms *)

Module Examples.
Import AutoForm Sample.
#[local] Existing Instance Sample.store.
#[local] Existing Instance AutoForm.default_hooks.
#[local] Existing Instance LegacyAutoForm.default_hooks.

(** C1 on the sample forms: one call for the valid form, none for the
    invalid one. *)
Lemma save_gating_witness :
  calls (run (resolves anna) id (save editing)) = [CallSave ann] /\
  (calls (run (resolves anna) id (save invalid)) = [] /\
   thrown (run (resolves anna) id (save invalid)) = None /\
   final (run (resolves anna) id (save invalid)) = set_forceErrorDisplay true invalid).
Proof.
  split.
  - exact (save_gating editing (resolves anna) id).
  - exact (save_gating invalid (resolves anna) id).
Defined.

(** C2: the save service rejects with [{fields: {email: "invalid"}}]. *)
Lemma save_rejected_recovery_witness :
  (isValid (entity editing) = true /\
   final (run (rejects email_invalid) id (save editing)) =
     set_isLoading false (set_isLoading true (set_forceErrorDisplay true editing)) /\
   isLoading (final (run (rejects email_invalid) id (save editing))) = false /\
   entity (final (run (rejects email_invalid) id (save editing))) = entity editing) /\
  ((LegacyAutoForm.validate Sample.legacy).2 = Some true /\
   LegacyAutoForm.isLoading
     (final (run (rejects email_invalid) id (LegacyAutoForm.save Sample.legacy))) = false /\
   LegacyAutoForm.isEdit
     (final (run (rejects email_invalid) id (LegacyAutoForm.save Sample.legacy))) = true /\
   LegacyAutoForm.errors
     (final (run (rejects email_invalid) id (LegacyAutoForm.save Sample.legacy)))
   = {[ "email" := "invalid" ]}).
Proof.
  split.
  - split; [reflexivity|].
    destruct (proj1 save_rejected_recovery editing (rejects email_invalid) id email_invalid
                eq_refl eq_refl) as (Hfinal & _ & Hloading & Hentity).
    exact (conj Hfinal (conj Hloading Hentity)).
  - split; [reflexivity|].
    destruct (proj2 save_rejected_recovery Sample.legacy (rejects email_invalid) id
                (Some {[ "email" := "invalid" ]}) eq_refl eq_refl)
      as (_ & Hloading & Hedit & _ & Herrors).
    exact (conj Hloading (conj Hedit Herrors)).
Defined.

(** C2, the claim as stated: after that rejection the form is the one
    below, and no reading of its state as an error map can hold the
    messages of the rejection, since the state is the same whatever the
    rejection carries.  In the earlier revision the messages are not merged
    into the errors either: the error left under [name] by a previous save
    is gone. *)
Lemma rejected_fields_not_merged :
  final (run (rejects email_invalid) id (save editing)) =
    {| forceErrorDisplay := true;
       entity := {| view := ann; sourceNode := ann;
                    form_isEdit := true; subscribed := true |};
       AutoForm.services := Sample.services;
       isLoading := false;
       i18nPrefix := "focus";
       messages := [] |} /\
  (~ exists error_map : state -> gmap string string,
       forall (fields : gmap string string) k m,
         fields !! k = Some m ->
         error_map (final (run (rejects (ErrorObject (Some fields))) id (save editing)))
           !! k = Some m) /\
  (LegacyAutoForm.errors Sample.legacy !! "name" = Some "required" /\
   LegacyAutoForm.errors
     (final (run (rejects email_invalid) id (LegacyAutoForm.save Sample.legacy)))
     !! "name" = None).
Proof.
  split; [reflexivity|]. split; [|split; reflexivity].
  intros [error_map Hmap].
  pose proof (Hmap {[ "email" := "invalid" ]} "email" "invalid" eq_refl) as H1.
  pose proof (Hmap {[ "email" := "taken" ]} "email" "taken" eq_refl) as H2.
  change (final (run (rejects (ErrorObject (Some {[ "email" := "taken" ]}))) id (save editing)))
    with (final (run (rejects (ErrorObject (Some {[ "email" := "invalid" ]}))) id (save editing)))
    in H2.
  rewrite H1 in H2. discriminate H2.
Qed.

(** In the earlier revision the [fields] of the rejection replace the
    errors of the form: the error left by a previous save is gone. *)
Example legacy_rejected_fields_replace_errors :
  LegacyAutoForm.errors Sample.legacy = {[ "name" := "required" ]} /\
  LegacyAutoForm.errors
    (final (run (rejects email_invalid) id (LegacyAutoForm.save Sample.legacy)))
  = {[ "email" := "invalid" ]}.
Proof. split; reflexivity. Qed.

(** C3: the save service resolves with [anna]. *)
Lemma save_resolved_witness :
  isValid (entity editing) = true /\
  exists f6,
    run (resolves anna) id (save editing) = (onFormSaved f6, None, [CallSave ann]) /\
    sourceNode (entity f6) = set anna ann /\
    form_isEdit (entity f6) = false /\
    isLoading f6 = false /\
    forceErrorDisplay f6 = true /\
    messages f6 = [].
Proof.
  split; [reflexivity|].
  exact (save_resolved editing (resolves anna) id anna eq_refl eq_refl).
Defined.

Example save_resolved_messages :
  messages (final (run (resolves anna) id (save editing))) = ["focus.detail.saved"].
Proof. reflexivity. Qed.

(** C4: a load with the parameters [[7]], and one without parameters. *)
Lemma load_lifecycle_witness :
  (isLoading (state_of (load editing)) = true /\
   sourceNode (entity (state_of (load editing))) = clear ann /\
   calls (run (resolves anna) id (load editing)) = [CallLoad [Js.Num 7]] /\
   forall data,
     resolves anna (CallLoad [Js.Num 7]) = Resolved data ->
     exists f5,
       run (resolves anna) id (load editing) =
         (onFormLoaded f5, None, [CallLoad [Js.Num 7]]) /\
       sourceNode (entity f5) = set data (sourceNode (entity (state_of (load editing)))) /\
       isLoading f5 = false) /\
  load unparameterised = Return unparameterised.
Proof.
  split.
  - exact (load_lifecycle editing (fun _ => Some [Js.Num 7]) (resolves anna) id
             eq_refl eq_refl).
  - exact (load_lifecycle unparameterised (fun _ => None) (resolves anna) id
             eq_refl eq_refl).
Defined.

(** C5: the load service rejects. *)
Lemma load_rejected_keeps_isLoading_witness :
  isLoading editing = false /\
  thrown (run (rejects Nullish) id (load editing)) = Some (ServiceError Nullish) /\
  isLoading (final (run (rejects Nullish) id (load editing))) = true.
Proof.
  split; [reflexivity|].
  exact (proj2 (load_rejected_keeps_isLoading editing (fun _ => Some [Js.Num 7])
                  [Js.Num 7] (rejects Nullish) id Nullish
                  eq_refl eq_refl eq_refl eq_refl (fun _ => eq_refl))).
Defined.

(** C6: [save()] on the form whose save is in flight. *)
Lemma save_while_loading_witness :
  isLoading saving = true /\
  state_of (save saving) = set_forceErrorDisplay true saving /\
  calls (run (resolves anna) id (save saving)) = [CallSave ann].
Proof.
  split; [reflexivity|].
  exact (save_while_loading saving (resolves anna) id eq_refl).
Defined.

(** C6, the claim as stated: the second [save()] is not a no-op. *)
Lemma save_while_loading_calls_again :
  isLoading saving = true /\
  ~ (calls (run (resolves anna) id (save saving)) = [] /\
     state_of (save saving) = saving).
Proof.
  split; [reflexivity|].
  intros [Hcalls _]. discriminate Hcalls.
Qed.

Lemma both_editing_page :
  page ({["form-2"]} ∪ ({["form-1"]} ∪ ∅)) MoreSamples.both_editing.
Proof.
  apply (page_action _ _ "form-2" unparameterised);
    [|apply elem_of_union_l, elem_of_singleton; reflexivity|reflexivity|constructor].
  apply page_mount; [|apply (bool_decide_unpack _); vm_compute; exact I].
  apply page_mount; [apply page_start|apply not_elem_of_empty].
Qed.

(** C7: two forms are mounted and the second is put in edit mode.  The
    registry has the two entries.  When the first form is unmounted in the
    middle of its edit, the query stays true, for the second form; when the
    edit of the second is cancelled instead, it stays true for the first. *)
Lemma isOneEdit_registry_witness :
  dom (editingMap MoreSamples.both_editing) = {["form-2"]} ∪ ({["form-1"]} ∪ ∅) /\
  isOneEdit MoreSamples.both_editing
    = foldr orb false (edit_flags MoreSamples.both_editing) /\
  (editingMap (componentWillUnmount "form-1" MoreSamples.both_editing) !! "form-1" = None /\
   (isOneEdit (componentWillUnmount "form-1" MoreSamples.both_editing) = true <->
    other_editing "form-1" MoreSamples.both_editing)) /\
  (editingMap (action "form-2" (toggleEdit false (toggleEdit true unparameterised))
                 MoreSamples.both_editing) !! "form-2" = Some false /\
   (isOneEdit (action "form-2" (toggleEdit false (toggleEdit true unparameterised))
                 MoreSamples.both_editing) = true <->
    false = true \/ other_editing "form-2" MoreSamples.both_editing)).
Proof.
  destruct (isOneEdit_registry _ MoreSamples.both_editing both_editing_page)
    as ((Hdom & _ & _ & Hor) & _ & Hunmount & Htoggle & _).
  split; [exact Hdom|]. split; [exact Hor|]. split.
  - apply (Hunmount "form-1").
    apply elem_of_union_r, elem_of_union_l, elem_of_singleton. reflexivity.
  - apply (Htoggle "form-2" (toggleEdit true unparameterised) false). reflexivity.
Defined.

(** The query along the life of that page: both forms leave one after the
    other, the first in the middle of its edit. *)
Example isOneEdit_two_forms :
  isOneEdit MoreSamples.two_forms = true /\
  editingMap MoreSamples.two_forms !! "form-2" = Some false /\
  isOneEdit MoreSamples.both_editing = true /\
  isOneEdit (componentWillUnmount "form-1" MoreSamples.two_forms) = false /\
  isOneEdit (componentWillUnmount "form-1" MoreSamples.both_editing) = true /\
  isOneEdit (componentWillUnmount "form-2"
               (componentWillUnmount "form-1" MoreSamples.both_editing)) = false /\
  isOneEdit (action "form-1" (toggleEdit false editing)
               (action "form-2" (toggleEdit false unparameterised)
                  MoreSamples.both_editing)) = false.
Proof. repeat split; vm_compute; reflexivity. Qed.

Example isOneEdit_values :
  isOneEdit no_form = false /\ isOneEdit one_form = true /\
  isOneEdit left_page = false /\ editingMap left_page = ∅ /\
  isOneEdit (action "form-1" (toggleEdit false editing) one_form) = false.
Proof. repeat split; vm_compute; reflexivity. Qed.

(** C8: cancelling the edit of the displayed form. *)
Lemma toggleEdit_registry_witness :
  displayed one_form !! "form-1" = Some (state_of (load (set_entity (subscribe (entity editing)) editing))) /\
  editingMap (action "form-1"
                (toggleEdit false (state_of (load (set_entity (subscribe (entity editing)) editing))))
                one_form) !! "form-1" = Some false.
Proof.
  split; [reflexivity|].
  exact (proj1 (proj2 (proj2 (proj2 (proj2
           (toggleEdit_registry "form-1"
              (state_of (load (set_entity (subscribe (entity editing)) editing)))
              one_form false eq_refl)))))).
Defined.

(** Cancelling brings the values of the source node back. *)
Example toggleEdit_false_resets :
  view (entity (toggleEdit false invalid)) = ann /\
  toggleEdit true invalid = invalid.
Proof. split; reflexivity. Qed.

(** C9: [country] and [currency] share the domain [DO_CODE], which has no
    input component; after [selectFor] on [country], [currency] has the
    select as its input component. *)
Lemma selectFor_overwrites_shared_domain_witness :
  domain (field_entry currency) = domain (field_entry country) /\
  InputComponent (domain_of Sample.domains currency) = None /\
  InputComponent
    (domain_of (domains_after (Helpers.selectFor Sample.domains country countries no_options))
       currency) = Some Select.
Proof.
  split; [reflexivity|]. split; [reflexivity|].
  exact (selectFor_overwrites_shared_domain Sample.domains country currency countries
           no_options eq_refl).
Defined.

(** C10: the label of the first element with the code [FR]; the value
    itself when the list has no element with the code. *)
Lemma stringFor_reference_list_witness :
  Utils.stringFor Sample.translate Sample.domains country country_list = "t:France" /\
  Utils.stringFor Sample.translate Sample.domains currency country_list = "t:EUR".
Proof.
  split.
  - refine (proj1 (stringFor_reference_list Sample.translate Sample.domains country
                     country_list) 1 _ eq_refl eq_refl _).
    intros [|j] val Hj Hval; [|lia].
    injection Hval as <-. reflexivity.
  - refine (proj2 (stringFor_reference_list Sample.translate Sample.domains currency
                     country_list) _).
    intros val Hval. unfold country_list, countries in Hval. simpl in Hval.
    repeat (apply elem_of_cons in Hval as [-> | Hval]; [reflexivity|]).
    apply elem_of_nil in Hval. contradiction.
Defined.

End Examples.

(** * Further properties *)

(** ** The earlier form: [validate], the refs, [delete], the errors *)

Section LegacyValidation.
Context `{Store} {hooks : LegacyAutoForm.Hooks}.
Import LegacyAutoForm.
Implicit Types (f : state) (fs : list (string * option Field)).

Lemma showErrors_complete fs :
  Forall (fun p => is_Some p.2) fs ->
  showErrors fs = ((fun p => (p.1, LegacyForm.shown p.2)) <$> fs, true).
Proof.
  induction 1 as [|[k fd] fs [fd' Hfd] _ IH]; [reflexivity|].
  simpl in Hfd. subst fd. simpl. rewrite IH. reflexivity.
Qed.

Lemma showErrors_null fs k :
  (k, None) ∈ fs -> (showErrors fs).2 = false.
Proof.
  induction fs as [|[k' [fd|]] fs IH]; intros Hin.
  - apply elem_of_nil in Hin. contradiction.
  - apply elem_of_cons in Hin as [Heq | Hin]; [discriminate|].
    simpl. specialize (IH Hin). destruct (showErrors fs). exact IH.
  - reflexivity.
Qed.

Lemma showErrors_in_error fs :
  existsb in_error (showErrors fs).1.*2 = existsb in_error fs.*2.
Proof.
  induction fs as [|[k [fd|]] fs IH]; [reflexivity| |reflexivity].
  simpl. destruct (showErrors fs) as [r ok]. csimpl in *. rewrite IH. reflexivity.
Qed.

Lemma showErrors_idempotent fs :
  showErrors (showErrors fs).1 = showErrors fs.
Proof.
  induction fs as [|[k [fd|]] fs IH]; [reflexivity| |reflexivity].
  simpl. destruct (showErrors fs) as [r ok]. simpl in *. rewrite IH. reflexivity.
Qed.

(** X1. When every ref holds a field, [validate()] returns true exactly when
    no field has a non-empty error; it makes every field show its error,
    keeps the errors themselves and touches nothing else of the form. *)
Theorem validate_all_fields f :
  Forall (fun p => is_Some p.2) (fields f) ->
  validate f =
    (set_fields ((fun p => (p.1, LegacyForm.shown p.2)) <$> fields f) f,
     Some (negb (existsb in_error (fields f).*2))).
Proof.
  intros Hall. unfold validate.
  pose proof (showErrors_in_error (fields f)) as Herr.
  rewrite (showErrors_complete _ Hall) in *. simpl in *. rewrite Herr. reflexivity.
Qed.

(** X3. [validate()] is idempotent: a second call finds the form as the
    first left it and gives the same answer. *)
Theorem validate_idempotent f :
  validate (validate f).1 = validate f.
Proof.
  unfold validate.
  pose proof (showErrors_idempotent (fields f)) as Hi.
  destruct (showErrors (fields f)) as [fs ok] eqn:Hs. simpl in Hi.
  destruct ok; simpl; rewrite Hi; reflexivity.
Qed.

Lemma assign_null {A : Type} key (o : list (string * option A)) :
  (key, None) ∈ LegacyForm.assign key None o.
Proof.
  induction o as [|[k x] o IH]; simpl.
  - apply list_elem_of_here.
  - destruct (String.eqb k key) eqn:Hk.
    + apply String.eqb_eq in Hk. subst k. apply list_elem_of_here.
    + apply list_elem_of_further, IH.
Qed.

(** X2. Once React has handed [null] to the ref of a field (the field has
    unmounted), [save()] throws a [TypeError] out of [validate()]: it calls
    no service and leaves [isLoading] as it was. *)
Theorem unmounted_field_blocks_save f key answer meanwhile :
  let r := run answer meanwhile (save (LegacyForm.ref key None f)) in
  thrown r = Some TypeError /\
  calls r = [] /\
  isLoading (final r) = isLoading f /\
  storeData (final r) = storeData f.
Proof.
  simpl. unfold save.
  pose proof (validate_state (LegacyForm.ref key None f)) as Hs.
  assert ((validate (LegacyForm.ref key None f)).2 = None) as Hr.
  { unfold validate.
    pose proof (showErrors_null (fields (LegacyForm.ref key None f)) key
                  (assign_null key (fields f))) as Hn.
    destruct (showErrors (fields (LegacyForm.ref key None f))) as [fs ok].
    simpl in Hn. subst ok. reflexivity. }
  destruct (validate (LegacyForm.ref key None f)) as [f1 res]. simpl in *.
  subst res f1. repeat split.
Qed.

(** X6. A resolved [save()] does not touch [errors]: the messages of an
    earlier rejection stay, as long as the hook and the rest of the program
    leave them. *)
Theorem save_resolved_keeps_errors f answer meanwhile data :
  (validate f).2 = Some true ->
  answer (CallSave (toFlatValues (entity f))) = Resolved data ->
  (forall s, errors (onFormSaved s) = errors s) ->
  (forall s, errors (meanwhile s) = errors s) ->
  errors (final (run answer meanwhile (save f))) = errors f.
Proof.
  intros Hv Ha Hhook Hm.
  rewrite (legacy_save_resolved f answer meanwhile data Hv Ha).
  unfold final. simpl. rewrite Hhook. simpl. rewrite Hm. simpl.
  rewrite validate_state. reflexivity.
Qed.

End LegacyValidation.

Section LegacyFormFacts.
Context `{Store} {hooks : LegacyAutoForm.Hooks}.
Variable onFormDeleted : LegacyAutoForm.state -> LegacyAutoForm.state.
Variable has_member : View -> string -> bool.
Import LegacyAutoForm.
Implicit Types (f : state).

(** X5. After a save rejected with a [fields] member, [setFieldOptions]
    hands to every field the message found under its translation key, and
    no error to a field the rejection does not name. *)
Theorem rejected_fields_reach_the_field f answer meanwhile messages field options :
  (validate f).2 = Some true ->
  answer (CallSave (toFlatValues (entity f))) = Rejected (ErrorObject (Some messages)) ->
  LegacyForm.error_option
    (LegacyForm.setFieldOptions has_member
       (final (run answer meanwhile (save f))) field options)
  = messages !! translationKey (field_entry field).
Proof.
  intros Hv Ha.
  rewrite (legacy_save_rejected f answer meanwhile (Some messages) Hv Ha).
  reflexivity.
Qed.

(** X4. [delete()] without a delete service does nothing.  With one, it
    calls it once with the flat values of the view model; when the service
    resolves, the success message is sent, [isLoading] is false and the
    store is cleared in the state on which [onFormDeleted] is fired, and
    the form is still in the edit mode it was in. *)
Theorem delete_lifecycle (delete_service : bool) f answer meanwhile :
  let r := run answer meanwhile (LegacyForm.delete onFormDeleted delete_service f) in
  let f2 := meanwhile (set_isLoading true f) in
  if delete_service then
    calls r = [LegacyForm.CallDelete (toFlatValues (entity f))] /\
    forall result,
      answer (LegacyForm.CallDelete (toFlatValues (entity f))) = Resolved result ->
      exists f5,
        final r = onFormDeleted f5 /\
        thrown r = None /\
        isLoading f5 = false /\
        storeData f5 = clear (storeData f2) /\
        effects f5 = (effects f2 ++ [SuccessMessage "detail.deleted"])%list /\
        isEdit f5 = isEdit f2
  else r = (f, None, []).
Proof.
  simpl. destruct delete_service; [|reflexivity].
  unfold LegacyForm.delete. rewrite run_Await. simpl. split.
  - destruct (answer _); reflexivity.
  - intros result Ha. rewrite Ha. eexists. repeat split.
Qed.

(** X7. When the delete service rejects, [delete()] rejects with the same
    reason and resets nothing: [isLoading] stays true, no message is sent
    and the store is not cleared. *)
Theorem delete_rejected_keeps_isLoading f answer meanwhile e :
  answer (LegacyForm.CallDelete (toFlatValues (entity f))) = Rejected e ->
  (forall s, isLoading (meanwhile s) = isLoading s) ->
  let r := run answer meanwhile (LegacyForm.delete onFormDeleted true f) in
  final r = meanwhile (set_isLoading true f) /\
  thrown r = Some (ServiceError e) /\
  isLoading (final r) = true.
Proof.
  intros Ha Hm r. subst r. unfold LegacyForm.delete.
  rewrite run_Await. simpl. rewrite Ha. simpl. repeat split.
  unfold final. simpl. apply Hm.
Qed.

End LegacyFormFacts.

(** ** The form with [editingMap]: retries, overlapping loads, the page *)

Section AutoFormMore.
Context `{Store} {hooks : AutoForm.Hooks}.
Import AutoForm.
Implicit Types (f : state) (w : World) (answer : Call -> outcome Data).

(** X8. After a rejected save the user can retry: a second [save()] on the
    form as the first one left it calls the save service again with the
    same values, and suspends in the same state. *)
Theorem save_retry_after_rejection f answer e answer' meanwhile' :
  isValid (entity f) = true ->
  answer (CallSave (toFlatValues (view (entity f)))) = Rejected e ->
  let f' := final (run answer id (save f)) in
  isLoading f' = false /\
  state_of (save f') = state_of (save f) /\
  calls (run answer' meanwhile' (save f')) = [CallSave (toFlatValues (view (entity f)))].
Proof.
  intros Hv Ha f'. subst f'.
  rewrite (save_rejected f answer id e Hv Ha). unfold final. simpl.
  split; [reflexivity|]. split.
  - unfold save. simpl. rewrite Hv. reflexivity.
  - rewrite save_calls. simpl. rewrite Hv. reflexivity.
Qed.

(** X9. Two overlapping loads whose responses come back in the opposite
    order: [load()] is called, and called again before the first response.
    When the second load resolves, [isLoading] is false although the first
    is still pending; when the first then resolves, its data is set on top
    of the data of the second.  ([onFormLoaded] is the hook of the class,
    which does nothing.) *)
Theorem overlapping_loads f g params :
  getLoadParams (services f) = Some g ->
  load_service (services f) = true ->
  g () = Some params ->
  (forall s, onFormLoaded s = s) ->
  exists first second k1 k2,
    load f = Await first (CallLoad params) k1 /\
    load first = Await second (CallLoad params) k2 /\
    forall data1 data2,
      let after_second := state_of (k2 (Resolved data2) second) in
      let after_first := state_of (k1 (Resolved data1) after_second) in
      isLoading after_second = false /\
      sourceNode (entity after_first) =
        set data1 (set data2 (clear (clear (sourceNode (entity f))))).
Proof.
  intros Hg Hl Hp Hhook.
  destruct (load_with_params f g params Hg Hl Hp) as (k1 & Hload1 & Hres1 & _).
  set (first := set_entity (sourceNode_clear (entity f)) (set_isLoading true f)) in *.
  destruct (load_with_params first g params Hg Hl Hp) as (k2 & Hload2 & Hres2 & _).
  eexists first, _, k1, k2. split; [exact Hload1|]. split; [exact Hload2|].
  intros data1 data2. simpl. rewrite Hres2. simpl. rewrite Hhook.
  rewrite Hres1. simpl. rewrite Hhook. split; reflexivity.
Qed.

(** X10. Unmounting undoes mounting: a form mounted under an identifier the
    page does not know and then unmounted leaves [editingMap] and the
    displayed forms as they were. *)
Theorem unmount_after_mount formId f w :
  editingMap w !! formId = None ->
  displayed w !! formId = None ->
  componentWillUnmount formId (componentWillMount formId f w) = w.
Proof.
  intros He Hd. destruct w as [m d]. simpl in *.
  unfold componentWillUnmount, componentWillMount, action, updateApplicationStore.
  simpl. f_equal.
  - rewrite delete_insert_eq. apply delete_insert_id, He.
  - apply delete_insert_id, Hd.
Qed.

(** Mounting a form subscribes its form node, starts its load, keeps
    its edit flag, and leaves the entries of the other forms alone. *)
Lemma mount_displays_the_form formId f w :
  exists f',
    displayed (componentWillMount formId f w) !! formId = Some f' /\
    f' = state_of (load (set_entity (subscribe (entity f)) f)) /\
    subscribed (entity f') = true /\
    form_isEdit (entity f') = form_isEdit (entity f) /\
    (forall g params,
        getLoadParams (services f) = Some g -> load_service (services f) = true ->
        g () = Some params -> isLoading f' = true) /\
    forall other, other ≠ formId ->
      editingMap (componentWillMount formId f w) !! other = editingMap w !! other /\
      displayed (componentWillMount formId f w) !! other = displayed w !! other.
Proof.
  eexists. split.
  { unfold componentWillMount, action. simpl. apply lookup_insert_eq. }
  split; [reflexivity|].
  assert (forall f0, subscribed (entity (state_of (load f0))) = subscribed (entity f0)
                     /\ form_isEdit (entity (state_of (load f0))) = form_isEdit (entity f0))
    as Hkeep.
  { intros f0. unfold load.
    destruct (getLoadParams (services f0)) as [g|]; [|split; reflexivity].
    destruct (load_service (services f0)); [|split; reflexivity].
    destruct (g ()); split; reflexivity. }
  split; [rewrite (proj1 (Hkeep _)); reflexivity|].
  split; [rewrite (proj2 (Hkeep _)); reflexivity|].
  split.
  - intros g params Hg Hl Hp. unfold load. simpl. rewrite Hg, Hl, Hp. reflexivity.
  - intros other Hne. unfold componentWillMount, action, updateApplicationStore. simpl.
    rewrite !lookup_insert_ne by auto. split; reflexivity.
Qed.

(** X11. A save that succeeds takes the form out of edit mode for the whole
    page.  [save()] is called on a displayed, valid form and suspends; the
    registry entry of the form is still its edit flag.  The service then
    resolves with [data] and the method runs to its end: the registry entry
    of the form is false, whatever it was, the form has the source node the
    data were set on, and the entries of the other forms are untouched.
    (The hook is assumed to leave the edit flag alone, as the hook of the
    class does.) *)
Theorem save_resolved_registry formId f w answer (data : Data) :
  displayed w !! formId = Some f ->
  isValid (entity f) = true ->
  answer (CallSave (toFlatValues (view (entity f)))) = Resolved data ->
  (forall s, form_isEdit (entity (onFormSaved s)) = form_isEdit (entity s)) ->
  let saving := state_of (save f) in
  let saved := final (run answer id (save f)) in
  let w1 := action formId saving w in
  let w2 := action formId saved w1 in
  step w w1 /\ step w1 w2 /\
  editingMap w1 !! formId = Some (form_isEdit (entity f)) /\
  editingMap w2 !! formId = Some false /\
  displayed w2 !! formId = Some saved /\
  (exists s, saved = onFormSaved s /\
             sourceNode (entity s) = set data (sourceNode (entity f))) /\
  forall other, other ≠ formId -> editingMap w2 !! other = editingMap w !! other.
Proof.
  intros Hd Hv Hans Hhook saving saved w1 w2.
  destruct (save_valid f Hv) as (k & Hsave & Hres & _).
  assert (saved = state_of (k (Resolved data) saving)) as Hsaved.
  { unfold saved, saving. rewrite Hsave, run_Await. simpl.
    rewrite Hans, Hres. reflexivity. }
  split; [|split; [|split; [|split; [|split; [|split]]]]].
  - apply (step_action formId f); [exact Hd | constructor].
  - apply (step_action formId saving).
    + unfold w1, action. simpl. apply lookup_insert_eq.
    + rewrite Hsaved. eapply (save_resumed f). exact Hsave.
  - unfold w1, saving, action, updateApplicationStore. simpl.
    rewrite lookup_insert_eq, Hsave. reflexivity.
  - unfold w2, action, updateApplicationStore. simpl.
    rewrite lookup_insert_eq, Hsaved, Hres. simpl. rewrite Hhook. reflexivity.
  - unfold w2, action. simpl. apply lookup_insert_eq.
  - rewrite Hsaved, Hres. simpl. eexists. split; [reflexivity|].
    unfold saving. rewrite Hsave. reflexivity.
  - intros other Hne. unfold w2, w1, action, updateApplicationStore. simpl.
    rewrite !lookup_insert_ne by auto. reflexivity.
Qed.

End AutoFormMore.

(** ** The field helpers, once more *)

Lemma strict_eq_NaN v : Js.strict_eq v Js.NaN = false.
Proof. destruct v; reflexivity. Qed.

Lemma strict_eq_Undefined v : Js.strict_eq v Js.Undefined = true <-> v = Js.Undefined.
Proof. destruct v; simpl; split; intros; congruence. Qed.

Lemma find_app_found {A : Type} (p : A -> bool) (l1 l2 : list A) x :
  Js.find p l1 = Some x -> Js.find p (l1 ++ l2) = Some x.
Proof.
  induction l1 as [|a l1 IH]; simpl; [discriminate|].
  destruct (p a); auto.
Qed.

Lemma find_app_none {A : Type} (p : A -> bool) (l1 l2 : list A) :
  Js.find p l1 = None -> Js.find p (l1 ++ l2) = Js.find p l2.
Proof.
  induction l1 as [|a l1 IH]; simpl; [reflexivity|].
  destruct (p a); [discriminate | auto].
Qed.

Lemma find_some_elem {A : Type} (p : A -> bool) (l : list A) x :
  x ∈ l -> p x = true -> is_Some (Js.find p l).
Proof.
  induction l as [|a l IH]; intros Hin Hp.
  - apply elem_of_nil in Hin. contradiction.
  - simpl. destruct (p a) eqn:Ha; [eauto|].
    apply elem_of_cons in Hin as [-> | Hin]; [congruence | auto].
Qed.

Section HelperMore.
Variable translate : Js.value -> string.
Implicit Types (ds : Domains) (field : EntityField) (options : FieldOptions).

(** X12. [displayFor] always renders the field read-only: whatever the
    options say about [isEdit] or [innerRef], the element and the options
    object end with [isEdit] false, and no domain is touched. *)
Theorem displayFor_is_read_only ds field options :
  let r := Helpers.displayFor ds field options in
  isEdit (el_props (element r)) = Some false /\
  isEdit (options_after r) = Some false /\
  domains_after r = ds.
Proof.
  destruct options as [[h|] e [|] v c vk lk]; repeat split.
Qed.

(** X13. The [selectFor] of the helper file changes one member of one
    domain object: a field of another domain reads its domain as before,
    and a field of the same domain reads it with the new [InputComponent]
    and every other member as before. *)
Theorem selectFor_frame ds field other vs options :
  let ds' := domains_after (Helpers.selectFor ds field vs options) in
  domain_of ds' other =
    if decide (domain (field_entry other) = domain (field_entry field))
    then set_InputComponent (default Select (SelectComponent options)) (domain_of ds other)
    else domain_of ds other.
Proof.
  intros ds'. unfold ds'. rewrite helpers_selectFor_domains. unfold domain_of.
  destruct (decide _) as [Heq | Hne].
  - rewrite Heq, lookup_insert_eq. reflexivity.
  - rewrite lookup_insert_ne by congruence. reflexivity.
Qed.

Lemma selectFor_keeps_formatter ds field other vs options :
  formatter_of translate
    (domain_of (domains_after (Helpers.selectFor ds field vs options)) other)
  = formatter_of translate (domain_of ds other).
Proof.
  rewrite helpers_selectFor_domains. unfold domain_of.
  destruct (decide (domain (field_entry other) = domain (field_entry field)))
    as [Heq | Hne].
  - rewrite Heq, lookup_insert_eq. reflexivity.
  - rewrite lookup_insert_ne by congruence. reflexivity.
Qed.

(** X14. What [selectFor] does to the text of the fields.  Its write into
    the domain changes none: for every field, [stringFor] of either
    revision returns what it returned before, as long as it is not given
    the options object that was handed to [selectFor].  That object now
    carries the list: on it, [stringFor] resolves the value of any field
    against [vs], with the keys the object has, whatever list it carried
    before. *)
Theorem stringFor_after_selectFor ds field other vs options o (l : ReferenceList) :
  let r := Helpers.selectFor ds field vs options in
  Helpers.stringFor translate (domains_after r) other o
    = Helpers.stringFor translate ds other o /\
  Utils.stringFor translate (domains_after r) other l
    = Utils.stringFor translate ds other l /\
  values (options_after r) = Some vs /\
  Helpers.stringFor translate (domains_after r) other (options_after r)
    = Utils.stringFor translate ds other
        {| items := vs; ref_valueKey := valueKey options;
           ref_labelKey := labelKey options |}.
Proof.
  intros r.
  pose proof (selectFor_keeps_formatter ds field other vs options) as Hf.
  fold r in Hf.
  assert (values (options_after r) = Some vs /\
          valueKey (options_after r) = valueKey options /\
          labelKey (options_after r) = labelKey options) as (Hvs & Hvk & Hlk).
  { unfold r, Helpers.selectFor, Helpers.fieldFor, default_onChange.
    destruct options as [[h|] [e|] [|] v c vk lk]; repeat split. }
  unfold Helpers.stringFor, Utils.stringFor.
  rewrite Hf, Hvs, Hvk, Hlk. repeat split.
Qed.

(** X15. A field without a value takes the label of the first element that
    has no property under the value key: [undefined === undefined].  Here
    every element before the one at [i] has a defined value. *)
Theorem stringFor_undefined_value ds field (vs : ReferenceList) i found :
  let format := default translate (displayFormatter (domain_of ds field)) in
  let valueKey := default "code" (ref_valueKey vs) in
  let labelKey := default "label" (ref_labelKey vs) in
  value field = Js.Undefined ->
  items vs !! i = Some found ->
  found !! valueKey = None ->
  (forall j val, j < i -> items vs !! j = Some val -> Js.get val valueKey ≠ Js.Undefined) ->
  Utils.stringFor translate ds field vs =
  format (if Js.truthy (Js.get found labelKey)
          then Js.get found labelKey else Js.Undefined).
Proof.
  simpl. intros Hv Hi Hnone Hbefore. unfold Utils.stringFor. rewrite Hv.
  rewrite (find_first _ _ i found Hi).
  - reflexivity.
  - unfold Js.get. rewrite Hnone. reflexivity.
  - intros j val Hj Hval. specialize (Hbefore j val Hj Hval).
    destruct (Js.strict_eq _ _) eqn:He; [|reflexivity].
    apply strict_eq_Undefined in He. contradiction.
Qed.

(** X16. [stringFor] stops at the first element with the value of the
    field: elements added after a list that has one change nothing, and
    neither do elements without it put in front. *)
Theorem stringFor_first_match_only ds field vk lk (front l back : list Js.object) :
  let matches val := Js.strict_eq (Js.get val (default "code" vk)) (value field) in
  (exists val, val ∈ l /\ matches val = true) ->
  (forall val, val ∈ front -> matches val = false) ->
  Utils.stringFor translate ds field
    {| items := front ++ l ++ back; ref_valueKey := vk; ref_labelKey := lk |}
  = Utils.stringFor translate ds field
      {| items := l; ref_valueKey := vk; ref_labelKey := lk |}.
Proof.
  intros matches (val & Hin & Hm) Hfront. unfold Utils.stringFor. simpl.
  destruct (find_some_elem matches l val Hin Hm) as [x Hx].
  fold matches.
  rewrite (find_app_none matches front (l ++ back) (find_none _ _ Hfront)).
  rewrite (find_app_found matches l back x Hx), Hx. reflexivity.
Qed.

(** X17. A field whose value is [NaN] is never found in a list, since [NaN]
    is not [===] to anything: [stringFor] formats the value itself. *)
Theorem stringFor_NaN ds field (vs : ReferenceList) :
  value field = Js.NaN ->
  Utils.stringFor translate ds field vs =
  default translate (displayFormatter (domain_of ds field)) Js.NaN.
Proof.
  intros Hv. unfold Utils.stringFor. rewrite Hv.
  rewrite find_none; [reflexivity|].
  intros x _. apply strict_eq_NaN.
Qed.

End HelperMore.

(** ** The select and the text of the field it feeds *)

Section SelectFacts.
Variable translate : Js.value -> string.
Implicit Types (props : SelectInput.SelectProps) (field : EntityField).

Lemma changed_cases v :
  SelectInput.changed v = if String.eqb v "" then Js.Undefined else Js.Str v.
Proof.
  unfold SelectInput.changed, Js.or. simpl. destruct (String.eqb v ""); reflexivity.
Qed.

(** X18. With [hasUndefined] (the default) the select opens with an empty
    option, whose value is the empty string and whose text is the
    unselected label, translated twice; picking it reports [undefined].
    The other options follow, one per value, in order. *)
Theorem select_empty_option props :
  default true (SelectInput.hasUndefined props) = true ->
  SelectInput.valueKey props ≠ SelectInput.labelKey props ->
  let unselected :=
    default (default "focus" (SelectInput.i18nPrefix props) ++ ".select.unselected")
      (SelectInput.unSelectedLabel props) in
  SelectInput.options (SelectInput.Select translate props) =
    {| SelectInput.optVal := "";
       SelectInput.optText := translate (Js.Str (translate (Js.Str unselected))) |}
    :: (SelectInput.option_of translate props <$> SelectInput.values props) /\
  SelectInput.pick (SelectInput.Select translate props) 0 = Some Js.Undefined.
Proof.
  intros Hu Hne unselected.
  assert (SelectInput.options (SelectInput.Select translate props) =
          {| SelectInput.optVal := "";
             SelectInput.optText := translate (Js.Str (translate (Js.Str unselected))) |}
          :: (SelectInput.option_of translate props <$> SelectInput.values props)) as Ho.
  { unfold SelectInput.Select, SelectInput.finalValues. simpl. rewrite Hu. csimpl. f_equal.
    unfold SelectInput.option_of, Js.get.
    rewrite lookup_insert_eq, lookup_insert_ne, lookup_insert_eq by congruence.
    reflexivity. }
  split; [exact Ho|]. unfold SelectInput.pick. rewrite Ho. reflexivity.
Qed.

(** X19. Whatever option the user picks, the handler receives [undefined]
    or a non-empty string, never the value of the element itself when that
    was a number, a boolean or [null]. *)
Theorem pick_reports_strings (r : SelectInput.Rendered) idx v :
  SelectInput.pick r idx = Some v ->
  v = Js.Undefined \/ exists s, v = Js.Str s /\ s ≠ "".
Proof.
  unfold SelectInput.pick.
  destruct (SelectInput.options r !! idx) as [o|]; [|discriminate].
  simpl. intros [= <-]. rewrite changed_cases.
  destruct (String.eqb (SelectInput.optVal o) "") eqn:He; [left; reflexivity|].
  right. eexists. split; [reflexivity|]. apply String.eqb_neq, He.
Qed.

(** X20. When the codes of the values are numbers, the value a pick stores
    in the field is a string that no code is [===] to: [stringFor] on that
    field, with the same list, never shows a label, only the stored
    value. *)
Theorem numeric_codes_lose_their_label props idx v ds field :
  (forall val, val ∈ SelectInput.values props ->
               exists n, Js.get val (SelectInput.valueKey props) = Js.Num n) ->
  SelectInput.pick (SelectInput.Select translate props) idx = Some v ->
  value field = v ->
  Utils.stringFor translate ds field (SelectInput.reference_list props) =
  default translate (displayFormatter (domain_of ds field)) v.
Proof.
  intros Hnum Hpick Hv. unfold Utils.stringFor, SelectInput.reference_list. simpl.
  rewrite find_none; [rewrite Hv; reflexivity|].
  intros val Hin. destruct (Hnum val Hin) as [n ->]. rewrite Hv.
  unfold SelectInput.pick in Hpick.
  destruct (SelectInput.options _ !! idx) as [o|]; [|discriminate].
  simpl in Hpick. injection Hpick as <-. rewrite changed_cases.
  destruct (String.eqb (SelectInput.optVal o) ""); reflexivity.
Qed.

(** X21. When the code of the element at [i] is a non-empty string that no
    earlier element has, and its label is truthy, picking its option and
    then asking [stringFor] for the text of the field gives its label. *)
Theorem string_codes_round_trip props i el code ds field :
  SelectInput.values props !! i = Some el ->
  Js.get el (SelectInput.valueKey props) = Js.Str code ->
  code ≠ "" ->
  Js.truthy (Js.get el (SelectInput.labelKey props)) = true ->
  (forall j val, j < i -> SelectInput.values props !! j = Some val ->
      Js.strict_eq (Js.get val (SelectInput.valueKey props)) (Js.Str code) = false) ->
  let offset := if default true (SelectInput.hasUndefined props) then 1 else 0 in
  SelectInput.pick (SelectInput.Select translate props) (offset + i) = Some (Js.Str code) /\
  (value field = Js.Str code ->
   Utils.stringFor translate ds field (SelectInput.reference_list props) =
   default translate (displayFormatter (domain_of ds field))
     (Js.get el (SelectInput.labelKey props))).
Proof.
  intros Hi Hcode Hne Hlabel Hbefore. simpl. split.
  - unfold SelectInput.pick, SelectInput.Select, SelectInput.finalValues. simpl.
    assert ((SelectInput.option_of translate props <$> SelectInput.values props) !! i
            = Some (SelectInput.option_of translate props el)) as Ho
      by (rewrite list_lookup_fmap, Hi; reflexivity).
    apply String.eqb_neq in Hne.
    destruct (default true (SelectInput.hasUndefined props)); csimpl; rewrite Ho; simpl;
      unfold SelectInput.option_of; simpl; rewrite Hcode; simpl; rewrite changed_cases;
      rewrite Hne; reflexivity.
  - intros Hv. unfold Utils.stringFor, SelectInput.reference_list. simpl. rewrite Hv.
    rewrite (find_first _ _ i el Hi).
    + unfold Js.or. rewrite Hlabel. reflexivity.
    + rewrite Hcode. simpl. apply String.eqb_refl.
    + exact Hbefore.
Qed.

End SelectFacts.

(** ** The action bar *)

Lemma string_length_app (s t : string) :
  String.length (s ++ t) = String.length s + String.length t.
Proof. induction s as [|a s IH]; simpl; [reflexivity | rewrite IH; reflexivity]. Qed.

(** A key followed by a boolean is never a key followed by ["asc"] or
    ["desc"]: the last characters differ. *)
Lemma key_order_differs (k1 k2 : string) (o1 o2 : bool) :
  k1 ++ (if o1 then "true" else "false") ≠ k2 ++ (if o2 then "asc" else "desc").
Proof.
  intros Heq.
  pose proof (f_equal String.length Heq) as Hlen. rewrite !string_length_app in Hlen.
  set (s1 := if o1 then "true" else "false") in *.
  set (s2 := if o2 then "asc" else "desc") in *.
  pose proof (String.append_correct2 k1 s1 (String.length s1 - 1)) as H1.
  pose proof (String.append_correct2 k2 s2 (String.length s2 - 1)) as H2.
  rewrite Heq in H1.
  replace (String.length s1 - 1 + String.length k1)
    with (String.length s2 - 1 + String.length k2) in H1
    by (destruct o1, o2; simpl in *; lia).
  rewrite <- H2 in H1. destruct o1, o2; discriminate H1.
Qed.

Section ActionBarFacts.
Variable translate : string -> string.
Implicit Types (props : ActionBar.ActionBarProps).

(** X22. No entry of the order menu is ever styled as selected: the style
    compares the key followed by the boolean [order] with the selected key
    followed by ["asc"] or ["desc"]. *)
Theorem order_menu_never_selected props menu :
  ActionBar.getOrderObject props = Some menu ->
  Forall (fun item => ActionBar.style item = Some "") (ActionBar.operations menu).
Proof.
  unfold ActionBar.getOrderObject.
  destruct (ActionBar.orderableColumnList props) as [columns|]; [|discriminate].
  destruct (ActionBar.orderSelected props) as [[[k|] [o|]]|]; try discriminate.
  simpl. destruct (_ && _); [|discriminate]. intros [= <-]. simpl.
  apply Forall_fmap, Forall_forall. intros c _. simpl.
  unfold ActionBar.getSelectedStyle, ActionBar.key_order.
  destruct (String.eqb _ _) eqn:He; [|reflexivity].
  apply String.eqb_eq in He. exfalso. exact (key_order_differs _ _ _ _ He).
Qed.

(** X23. The group menu needs a group to be selected already: without a
    selected key, or with the empty one, no menu is rendered whatever else
    is supplied, and a warning is logged when grouping was asked for.  When
    the menu is rendered it has one entry per groupable column, in order,
    styled as selected exactly when its key is the selected one, and a last
    entry that ungroups. *)
Theorem group_menu props :
  (ActionBar.truthy_string (ActionBar.groupSelectedKey props) = false ->
   ActionBar.getGroupObject translate props = (None, ActionBar.hasGrouping props)) /\
  (forall menu warned,
      ActionBar.getGroupObject translate props = (Some menu, warned) ->
      exists columns selected,
        ActionBar.groupableColumnList props = Some columns /\
        ActionBar.groupSelectedKey props = Some selected /\
        warned = false /\
        length (ActionBar.operations menu) = S (length columns) /\
        last (ActionBar.operations menu) =
          Some {| ActionBar.action := ActionBar.groupAction None;
                  ActionBar.item_label := translate "list.actionBar.ungroup";
                  ActionBar.style := None |} /\
        forall i key label,
          columns !! i = Some (key, label) ->
          ActionBar.operations menu !! i =
            Some {| ActionBar.action := ActionBar.groupAction (Some key);
                    ActionBar.item_label :=
                      translate (default "" (ActionBar.groupLabelPrefix props) ++ label);
                    ActionBar.style :=
                      Some (if String.eqb key selected then " selected " else "") |}).
Proof.
  unfold ActionBar.getGroupObject. split.
  - intros Hk. destruct (ActionBar.groupSelectedKey props) as [k|]; [|reflexivity].
    simpl in Hk. destruct (ActionBar.groupableColumnList props); [|reflexivity].
    rewrite Hk. rewrite andb_false_r. reflexivity.
  - intros menu warned.
    destruct (ActionBar.groupSelectedKey props) as [k|]; [|discriminate].
    destruct (ActionBar.groupableColumnList props) as [columns|]; [|discriminate].
    destruct (_ && _); [|discriminate]. intros [= <- <-].
    exists columns, k. simpl. repeat split.
    + rewrite length_app, length_fmap. simpl. lia.
    + apply last_snoc.
    + intros i key label Hi. rewrite lookup_app_l.
      * rewrite list_lookup_fmap, Hi. reflexivity.
      * rewrite length_fmap. apply lookup_lt_Some in Hi. exact Hi.
Qed.

End ActionBarFacts.

(** ** The list: where the detail of a line goes *)

Lemma splice_lookup_before {A : Type} idx (x : A) (items : list A) j :
  j < idx -> j < length items -> ListComponent.splice idx x items !! j = items !! j.
Proof.
  intros Hj Hlen. unfold ListComponent.splice.
  rewrite lookup_app_l by (rewrite length_take; lia).
  apply lookup_take_lt. exact Hj.
Qed.

Lemma splice_lookup_new {A : Type} idx (x : A) (items : list A) :
  ListComponent.splice idx x items !! (idx `min` length items) = Some x.
Proof.
  unfold ListComponent.splice.
  rewrite <- (length_take items idx) at 1.
  apply list_lookup_middle. reflexivity.
Qed.

Lemma lines_lookup n d :
  d < n -> (ListComponent.Line <$> seq 0 n) !! d = Some (ListComponent.Line d).
Proof.
  intros Hd. rewrite list_lookup_fmap, lookup_seq_lt by exact Hd. reflexivity.
Qed.

Lemma next_row (idx b : nat) :
  b ≠ 0 ->
  (idx + (b - idx mod b)) mod b = 0 /\ idx < idx + (b - idx mod b) <= idx + b.
Proof.
  intros Hb. pose proof (Nat.mod_upper_bound idx b Hb) as Hlt. split; [|lia].
  pose proof (Nat.div_mod_eq idx b) as Hdm.
  replace (idx + (b - idx mod b)) with ((idx / b + 1) * b) by nia.
  apply Nat.Div0.mod_mul.
Qed.

Section ListFacts.
Variable props : ListComponent.ListProps.
Variable listWrapper : option ListComponent.ListWrapper.
Implicit Types (s : ListComponent.state).

Local Abbreviation mode := (ListComponent.mode props listWrapper).
Local Abbreviation isAddItemShown := (ListComponent.isAddItemShown props listWrapper).
Local Abbreviation detailIndex := (ListComponent.detailIndex props listWrapper).
Local Abbreviation renderLines := (ListComponent.renderLines props listWrapper).

(** X24. In list mode the detail of the clicked line comes right after the
    line: the lines are all there in order, the detail sits at the index
    after its line, and no tile to add an item is shown. *)
Theorem detail_follows_its_line s n d :
  mode = ListComponent.list_mode ->
  ListComponent.LineComponent props = true ->
  ListComponent.DetailComponent props = true ->
  ListComponent.displayedIdx s = Some d ->
  d < n ->
  exists items,
    renderLines s n = inr items /\
    length items = S n /\
    (forall j, j <= d -> items !! j = Some (ListComponent.Line j)) /\
    items !! S d = Some (ListComponent.Detail d) /\
    forall j, d < j -> j < n -> items !! S j = Some (ListComponent.Line j).
Proof.
  intros Hmode Hline Hdetail Hidx Hd.
  assert (isAddItemShown = false) as Hadd.
  { unfold ListComponent.isAddItemShown. rewrite Hmode.
    rewrite andb_false_r. reflexivity. }
  assert (detailIndex s d = S d) as Hdi.
  { unfold ListComponent.detailIndex. rewrite Hmode, Hadd. simpl. lia. }
  eexists. split.
  { unfold ListComponent.renderLines.
    rewrite Hmode, Hline, Hidx, Hdetail, Hadd, Hdi. simpl.
    rewrite bool_decide_eq_false_2 by lia. rewrite andb_false_r. reflexivity. }
  assert (length (ListComponent.Line <$> seq 0 n) = n) as Hlen
    by (rewrite length_fmap, length_seq; reflexivity).
  split; [|split; [|split]].
  - unfold ListComponent.splice. rewrite length_app. simpl.
    rewrite length_take, length_drop, Hlen. lia.
  - intros j Hj. rewrite splice_lookup_before by (rewrite ?Hlen; lia).
    apply lines_lookup. lia.
  - pose proof (splice_lookup_new (S d) (ListComponent.Detail d)
                  (ListComponent.Line <$> seq 0 n)) as Hn.
    rewrite Hlen in Hn. replace (S d `min` n) with (S d) in Hn by lia. exact Hn.
  - intros j Hj Hjn. unfold ListComponent.splice.
    rewrite lookup_app_r by (rewrite length_take, Hlen; lia).
    rewrite length_take, Hlen. replace (S d `min` n) with (S d) by lia.
    replace (S j - S d) with (S (j - S d)) by lia. simpl.
    rewrite lookup_drop. replace (S d + (j - S d)) with j by lia.
    apply lines_lookup, Hjn.
Qed.

(** X25. In mosaic mode, with at least one tile per row, the detail of the
    clicked tile opens the row below it: counting the tile to add an item
    when it is shown, the place of the detail in the grid is a multiple of
    [byLine], after the tile and at most one row further; the tile itself
    stays at its place, and the detail is the last element when the list
    ends before that place. *)
Theorem detail_opens_next_row s n d :
  mode = ListComponent.mosaic_mode ->
  ListComponent.MosaicComponent props = true ->
  ListComponent.DetailComponent props = true ->
  ListComponent.displayedIdx s = Some d ->
  d < n ->
  ListComponent.byLine s ≠ 0 ->
  let shift := if isAddItemShown then 1 else 0 in
  let place := detailIndex s d + shift in
  place mod ListComponent.byLine s = 0 /\
  d + shift < place <= d + shift + ListComponent.byLine s /\
  exists items,
    renderLines s n = inr items /\
    items !! (d + shift) = Some (ListComponent.Line d) /\
    items !! (place `min` (n + shift)) = Some (ListComponent.Detail d).
Proof.
  intros Hmode Hmosaic Hdetail Hidx Hd Hb shift place.
  assert (detailIndex s d + shift
          = (d + shift) + (ListComponent.byLine s - (d + shift) mod ListComponent.byLine s))
    as Hplace.
  { unfold ListComponent.detailIndex, shift. rewrite Hmode.
    destruct (ListComponent.byLine s) as [|b] eqn:Hbl; [contradiction|].
    pose proof (Nat.mod_upper_bound (d + (if isAddItemShown then 1 else 0)) (S b)
                  ltac:(lia)) as Hlt.
    destruct isAddItemShown; simpl orb; cbv iota;
      [|rewrite Nat.add_0_r in *]; lia. }
  destruct (next_row (d + shift) (ListComponent.byLine s) Hb) as [Hmod Hrange].
  unfold place. rewrite Hplace. split; [exact Hmod|]. split; [exact Hrange|].
  assert (length (ListComponent.Line <$> seq 0 n) = n) as Hlen
    by (rewrite length_fmap, length_seq; reflexivity).
  assert (d < detailIndex s d) as Hafter by (unfold shift in *; lia).
  eexists. split.
  { unfold ListComponent.renderLines.
    rewrite Hmode, Hmosaic, Hidx, Hdetail. simpl.
    rewrite bool_decide_eq_false_2 by lia. rewrite andb_false_r. reflexivity. }
  rewrite <- Hplace. unfold shift.
  destruct isAddItemShown.
  - rewrite !Nat.add_1_r. replace (S (detailIndex s d) `min` S n)
      with (S (detailIndex s d `min` n)) by lia. simpl.
    split.
    + rewrite splice_lookup_before by (rewrite ?Hlen; lia). apply lines_lookup, Hd.
    + rewrite <- Hlen at 1. apply splice_lookup_new.
  - rewrite !Nat.add_0_r. split.
    + rewrite splice_lookup_before by (rewrite ?Hlen; lia). apply lines_lookup, Hd.
    + rewrite <- Hlen at 1. apply splice_lookup_new.
Qed.

(** X26. When the list is narrower than one tile ([byLine] is 0), the
    detail is put before every tile, wherever the clicked tile is. *)
Theorem detail_first_when_no_tile_fits s n d :
  mode = ListComponent.mosaic_mode ->
  ListComponent.MosaicComponent props = true ->
  ListComponent.DetailComponent props = true ->
  ListComponent.displayedIdx s = Some d ->
  d < n ->
  ListComponent.byLine s = 0 ->
  renderLines s n =
    inr ((if isAddItemShown then [ListComponent.MosaicAdd] else [])
         ++ ListComponent.Detail d :: (ListComponent.Line <$> seq 0 n))%list.
Proof.
  intros Hmode Hmosaic Hdetail Hidx Hd Hb.
  unfold ListComponent.renderLines, ListComponent.detailIndex.
  rewrite Hmode, Hmosaic, Hidx, Hdetail, Hb. simpl.
  rewrite bool_decide_eq_false_2 by lia. rewrite andb_false_r.
  unfold ListComponent.splice. rewrite take_0, drop_0.
  destruct isAddItemShown; reflexivity.
Qed.

End ListFacts.

(** ** The panel *)

Section PanelFacts.
Variable translate : string -> string.
Variable firstWord : string -> string.
Implicit Types (props : Panel.PanelProps).

(** How many times the buttons are rendered. *)
Local Abbreviation button_bars r :=
  ((match Panel.top_bar r with Some (_, true) => 1 | _ => 0 end)
   + (if Panel.bottom_buttons r then 1 else 0)).

(** The buttons of a panel are rendered once for ["top"] (the
    default) and ["bottom"], twice for ["both"] and not at all for
    ["none"]; the top bar is left out exactly when there is neither a
    non-empty title nor buttons at the top. *)
Lemma panel_layout props :
  let r := Panel.render translate firstWord props in
  button_bars r =
    match default Panel.top (Panel.buttonsPosition props) with
    | Panel.both => 2
    | Panel.no_buttons => 0
    | _ => 1
    end /\
  (Panel.top_bar r = None <->
   (Panel.title props = None \/ Panel.title props = Some "") /\
   (Panel.buttonsPosition props = Some Panel.bottom \/
    Panel.buttonsPosition props = Some Panel.no_buttons)).
Proof.
  simpl. unfold Panel.render.
  destruct (Panel.title props) as [t|]; [destruct (String.eqb t "") eqn:Ht|];
    destruct (Panel.buttonsPosition props) as [[| | |]|]; simpl;
    try (apply String.eqb_eq in Ht; subst t);
    try (apply String.eqb_neq in Ht);
    (split; [reflexivity|]); split;
    intros; try discriminate; try tauto;
    repeat match goal with
           | H : _ /\ _ |- _ => destruct H
           | H : _ \/ _ |- _ => destruct H
           end; congruence.
Qed.

End PanelFacts.

Section PanelOfForm.
Context `{Store} {hooks : AutoForm.Hooks}.
Variable translate : string -> string.
Variable firstWord : string -> string.

(** X27. The panel of a form is busy and shows its progress bar from the
    moment a valid [save()] suspends until the save service settles: it is
    busy in the state the call leaves, and no longer busy after a rejection.
    In between, its edit state is the one of the form node. *)
Theorem panel_busy_while_saving (f : AutoForm.state) answer e :
  isValid (AutoForm.entity f) = true ->
  answer (CallSave (toFlatValues (view (AutoForm.entity f)))) = Rejected e ->
  let during := Panel.render translate firstWord
                  (Panel.getPanelProps (state_of (AutoForm.save f))) in
  let after := Panel.render translate firstWord
                 (Panel.getPanelProps (final (run answer id (AutoForm.save f)))) in
  Panel.busy during = true /\ Panel.progressBar during = true /\
  Panel.busy after = false /\ Panel.progressBar after = false /\
  Panel.editing (Panel.getPanelProps (state_of (AutoForm.save f)))
    = form_isEdit (AutoForm.entity f).
Proof.
  intros Hv Ha. simpl.
  rewrite (save_rejected f answer id e Hv Ha).
  destruct (save_valid f Hv) as (k & -> & _). repeat split.
Qed.

End PanelOfForm.

(** * The further properties on the sample inputs *)

Module MoreExamples.
Import Sample MoreSamples.
#[local] Existing Instance Sample.store.
#[local] Existing Instance AutoForm.default_hooks.
#[local] Existing Instance LegacyAutoForm.default_hooks.

(** X1 on the sample form of the earlier revision: its one field has no
    error, so [validate()] returns true and flags the field. *)
Lemma validate_all_fields_witness :
  Forall (fun p : string * option LegacyAutoForm.Field => is_Some p.2)
    (LegacyAutoForm.fields Sample.legacy) /\
  (LegacyAutoForm.validate Sample.legacy).2 = Some true /\
  LegacyAutoForm.fields (LegacyAutoForm.validate Sample.legacy).1 =
    [("person.name", Some {| LegacyAutoForm.error := None;
                             LegacyAutoForm.showError := true |})].
Proof.
  assert (Forall (fun p : string * option LegacyAutoForm.Field => is_Some p.2)
            (LegacyAutoForm.fields Sample.legacy)) as Hall
    by (repeat constructor; eexists; reflexivity).
  split; [exact Hall|].
  rewrite (validate_all_fields Sample.legacy Hall). split; reflexivity.
Defined.

(** X5: the message of the rejection under [email] reaches the field whose
    translation key is [email], and the field [country] gets none. *)
Lemma rejected_fields_reach_the_field_witness :
  LegacyForm.error_option
    (LegacyForm.setFieldOptions has_member
       (final (run (rejects email_invalid) id (LegacyAutoForm.save Sample.legacy)))
       email no_options) = Some "invalid" /\
  LegacyForm.error_option
    (LegacyForm.setFieldOptions has_member
       (final (run (rejects email_invalid) id (LegacyAutoForm.save Sample.legacy)))
       country no_options) = None.
Proof.
  split.
  - exact (rejected_fields_reach_the_field has_member Sample.legacy (rejects email_invalid)
             id {[ "email" := "invalid" ]} email no_options eq_refl eq_refl).
  - exact (rejected_fields_reach_the_field has_member Sample.legacy (rejects email_invalid)
             id {[ "email" := "invalid" ]} country no_options eq_refl eq_refl).
Defined.

(** X6: the error left under [name] is still there after a save that
    succeeds. *)
Lemma save_resolved_keeps_errors_witness :
  LegacyAutoForm.errors
    (final (run (resolves anna) id (LegacyAutoForm.save Sample.legacy)))
  = {[ "name" := "required" ]}.
Proof.
  exact (save_resolved_keeps_errors Sample.legacy (resolves anna) id anna
           eq_refl eq_refl (fun _ => eq_refl) (fun _ => eq_refl)).
Defined.

(** X4: a delete that resolves. *)
Lemma delete_lifecycle_witness :
  calls (run deleted id (LegacyForm.delete id true Sample.legacy))
    = [LegacyForm.CallDelete ann] /\
  LegacyAutoForm.isLoading
    (final (run deleted id (LegacyForm.delete id true Sample.legacy))) = false /\
  LegacyAutoForm.isEdit
    (final (run deleted id (LegacyForm.delete id true Sample.legacy))) = true /\
  run deleted id (LegacyForm.delete id false Sample.legacy) = (Sample.legacy, None, []).
Proof.
  destruct (delete_lifecycle id true Sample.legacy deleted id) as [Hcalls Hres].
  destruct (Hres (Js.Bool true) eq_refl) as (f5 & Hfinal & _ & Hloading & _ & _ & Hedit).
  split; [exact Hcalls|].
  split; [rewrite Hfinal; exact Hloading|].
  split; [rewrite Hfinal; exact Hedit|].
  exact (delete_lifecycle id false Sample.legacy deleted id).
Defined.

(** X7: a delete that rejects. *)
Lemma delete_rejected_keeps_isLoading_witness :
  LegacyAutoForm.isLoading Sample.legacy = false /\
  thrown (run not_deleted id (LegacyForm.delete id true Sample.legacy))
    = Some (ServiceError Nullish) /\
  LegacyAutoForm.isLoading
    (final (run not_deleted id (LegacyForm.delete id true Sample.legacy))) = true.
Proof.
  split; [reflexivity|].
  exact (proj2 (delete_rejected_keeps_isLoading id Sample.legacy not_deleted id Nullish
                  eq_refl (fun _ => eq_refl))).
Defined.

(** X8: the save of the editing form is rejected, then tried again. *)
Lemma save_retry_after_rejection_witness :
  AutoForm.isLoading (final (run (rejects email_invalid) id (AutoForm.save editing))) = false /\
  calls (run (resolves anna) id
           (AutoForm.save (final (run (rejects email_invalid) id (AutoForm.save editing)))))
  = [CallSave ann].
Proof.
  destruct (save_retry_after_rejection editing (rejects email_invalid) email_invalid
              (resolves anna) id eq_refl eq_refl) as (Hloading & _ & Hcalls).
  exact (conj Hloading Hcalls).
Defined.

(** X9: two overlapping loads of the editing form. *)
Lemma overlapping_loads_witness :
  exists first second k1 k2,
    AutoForm.load editing = Await first (CallLoad [Js.Num 7]) k1 /\
    AutoForm.load first = Await second (CallLoad [Js.Num 7]) k2 /\
    forall data1 data2,
      AutoForm.isLoading (state_of (k2 (Resolved data2) second)) = false /\
      sourceNode (AutoForm.entity
                    (state_of (k1 (Resolved data1) (state_of (k2 (Resolved data2) second)))))
      = set data1 (set data2 (clear (clear ann))).
Proof.
  exact (overlapping_loads editing (fun _ => Some [Js.Num 7]) [Js.Num 7]
           eq_refl eq_refl eq_refl (fun _ => eq_refl)).
Defined.

(** X10: the editing form mounted on the empty page, then unmounted. *)
Lemma unmount_after_mount_witness :
  AutoForm.componentWillUnmount "form-1"
    (AutoForm.componentWillMount "form-1" editing AutoForm.no_form)
  = AutoForm.no_form.
Proof.
  exact (unmount_after_mount "form-1" editing AutoForm.no_form eq_refl eq_refl).
Defined.

(** X11: the displayed form is saved and the service answers with the
    data of Anna. *)
Lemma save_resolved_registry_witness :
  AutoForm.editingMap draft_page !! "form-2" = Some true /\
  AutoForm.editingMap
    (AutoForm.action "form-2"
       (final (run (resolves anna) id
                 (AutoForm.save
                    (AutoForm.set_entity (subscribe (AutoForm.entity draft)) draft))))
       (AutoForm.action "form-2"
          (state_of (AutoForm.save
                       (AutoForm.set_entity (subscribe (AutoForm.entity draft)) draft)))
          draft_page))
    !! "form-2" = Some false.
Proof.
  split; [reflexivity|].
  exact (proj1 (proj2 (proj2 (proj2
           (save_resolved_registry (hooks := AutoForm.default_hooks) "form-2"
              (AutoForm.set_entity (subscribe (AutoForm.entity draft)) draft)
              draft_page (resolves anna) anna
              eq_refl eq_refl eq_refl (fun _ => eq_refl)))))).
Defined.

(** X14: the caller's options carry a list of their own, in which the
    value of [country] reads "Frankreich"; once [selectFor] has been given
    these options with the list of countries, the same call reads
    "France". *)
Lemma stringFor_after_selectFor_witness :
  Helpers.stringFor Sample.translate Sample.domains country german_options
    = "t:Frankreich" /\
  Helpers.stringFor Sample.translate
    (domains_after (Helpers.selectFor Sample.domains country countries german_options))
    country
    (options_after (Helpers.selectFor Sample.domains country countries german_options))
    = "t:France".
Proof.
  split; [reflexivity|].
  exact (eq_trans
           (proj2 (proj2 (proj2
              (stringFor_after_selectFor Sample.translate Sample.domains country country
                 countries german_options no_options country_list))))
           eq_refl).
Defined.

(** X15: the field without a value takes the label of the element that has
    no code. *)
Lemma stringFor_undefined_value_witness :
  Utils.stringFor Sample.translate Sample.domains unset with_codeless = "t:Elsewhere".
Proof.
  refine (stringFor_undefined_value Sample.translate Sample.domains unset with_codeless
            1 {[ "label" := Js.Str "Elsewhere" ]} eq_refl eq_refl eq_refl _).
  intros [|j] val Hj Hval; [|lia].
  injection Hval as <-. discriminate.
Defined.

(** X16: the countries between an element without the code [FR] and one more
    element with it. *)
Lemma stringFor_first_match_only_witness :
  Utils.stringFor Sample.translate Sample.domains country
    {| items := [ {[ "code" := Js.Str "IT"; "label" := Js.Str "Italy" ]} ]
                ++ countries
                ++ [ {[ "code" := Js.Str "FR"; "label" := Js.Str "Gaul" ]} ];
       ref_valueKey := None; ref_labelKey := None |}
  = Utils.stringFor Sample.translate Sample.domains country
      {| items := countries; ref_valueKey := None; ref_labelKey := None |}.
Proof.
  apply (stringFor_first_match_only Sample.translate Sample.domains country None None).
  - exists {[ "code" := Js.Str "FR"; "label" := Js.Str "France" ]}.
    split; [|reflexivity]. apply list_elem_of_further, list_elem_of_here.
  - intros val Hval. apply list_elem_of_singleton in Hval as ->. reflexivity.
Defined.

(** X17: a field holding [NaN]. *)
Lemma stringFor_NaN_witness :
  Utils.stringFor Sample.translate Sample.domains not_a_number country_list = "t".
Proof.
  exact (stringFor_NaN Sample.translate Sample.domains not_a_number country_list eq_refl).
Defined.

(** X18: the select over the countries. *)
Lemma select_empty_option_witness :
  SelectInput.options (SelectInput.Select Sample.translate country_select) =
    [ {| SelectInput.optVal := ""; SelectInput.optText := "t:t:focus.select.unselected" |};
      {| SelectInput.optVal := "DE"; SelectInput.optText := "t:Germany" |};
      {| SelectInput.optVal := "FR"; SelectInput.optText := "t:France" |};
      {| SelectInput.optVal := "FR"; SelectInput.optText := "t:Frankreich" |} ] /\
  SelectInput.pick (SelectInput.Select Sample.translate country_select) 0
    = Some Js.Undefined.
Proof.
  assert ("code" ≠ "label") as Hne by discriminate.
  exact (select_empty_option Sample.translate country_select eq_refl Hne).
Defined.

(** X19: picking the rank [1] reports the string ["1"]. *)
Lemma pick_reports_strings_witness :
  SelectInput.pick (SelectInput.Select Sample.translate rank_select) 1
    = Some (Js.Str "1") /\
  (Js.Str "1" = Js.Undefined \/ exists s, Js.Str "1" = Js.Str s /\ s ≠ "").
Proof.
  split; [reflexivity|].
  exact (pick_reports_strings (SelectInput.Select Sample.translate rank_select) 1
           (Js.Str "1") eq_refl).
Defined.

(** X20: after that pick the field reads ["1"], not [First]. *)
Lemma numeric_codes_lose_their_label_witness :
  Utils.stringFor Sample.translate Sample.domains rank_picked
    (SelectInput.reference_list rank_select) = "t:1".
Proof.
  refine (numeric_codes_lose_their_label Sample.translate rank_select 1 (Js.Str "1")
            Sample.domains rank_picked _ eq_refl eq_refl).
  intros val Hval. unfold rank_select, ranks in Hval. simpl in Hval.
  apply elem_of_cons in Hval as [-> | Hval]; [exists 1%Z; reflexivity|].
  apply list_elem_of_singleton in Hval as ->. exists 2%Z. reflexivity.
Defined.

(** X21: picking Germany and reading the field back. *)
Lemma string_codes_round_trip_witness :
  SelectInput.pick (SelectInput.Select Sample.translate country_select) 1
    = Some (Js.Str "DE") /\
  Utils.stringFor Sample.translate Sample.domains
    {| field_entry := field_entry country; value := Js.Str "DE" |}
    (SelectInput.reference_list country_select) = "t:Germany".
Proof.
  assert ("DE" ≠ "") as Hne by discriminate.
  destruct (string_codes_round_trip Sample.translate country_select 0
              {[ "code" := Js.Str "DE"; "label" := Js.Str "Germany" ]} "DE"
              Sample.domains {| field_entry := field_entry country; value := Js.Str "DE" |}
              eq_refl eq_refl Hne eq_refl
              (fun j val (Hj : j < 0) _ => False_ind _ (Nat.nlt_0_r j Hj)))
    as [Hpick Htext].
  exact (conj Hpick (Htext eq_refl)).
Defined.

(** X22: the bar is sorted by name, ascending, and the entry for it is not
    styled. *)
Lemma order_menu_never_selected_witness :
  exists menu,
    ActionBar.getOrderObject bar = Some menu /\
    ActionBar.style <$> ActionBar.operations menu = [Some ""; Some ""] /\
    Forall (fun item => ActionBar.style item = Some "") (ActionBar.operations menu).
Proof.
  eexists. split; [reflexivity|]. split; [reflexivity|].
  exact (order_menu_never_selected bar _ eq_refl).
Defined.

(** X23: the bar grouped by country, and the bar with no group selected. *)
Lemma group_menu_witness :
  ActionBar.getGroupObject MoreSamples.translate ungrouped_bar = (None, true) /\
  exists menu,
    ActionBar.getGroupObject MoreSamples.translate bar = (Some menu, false) /\
    length (ActionBar.operations menu) = 3.
Proof.
  split.
  - exact (proj1 (group_menu MoreSamples.translate ungrouped_bar) eq_refl).
  - eexists. split; [reflexivity|].
    destruct (proj2 (group_menu MoreSamples.translate bar) _ _ eq_refl)
      as (columns & sel & Hc & _ & _ & Hlen & _).
    injection Hc as <-. exact Hlen.
Defined.

(** X24: five lines, the second open. *)
Lemma detail_follows_its_line_witness :
  ListComponent.renderLines lines None second_open 5 =
    inr [ListComponent.Line 0; ListComponent.Line 1; ListComponent.Detail 1;
         ListComponent.Line 2; ListComponent.Line 3; ListComponent.Line 4] /\
  exists items,
    ListComponent.renderLines lines None second_open 5 = inr items /\
    items !! 2 = Some (ListComponent.Detail 1).
Proof.
  split; [reflexivity|].
  destruct (detail_follows_its_line lines None second_open 5 1
              eq_refl eq_refl eq_refl eq_refl ltac:(lia))
    as (items & Hr & _ & _ & Hd & _).
  exists items. exact (conj Hr Hd).
Defined.

(** X25: five tiles, three per row with the tile to add an item first; the
    second tile is open and its detail starts the second row. *)
Lemma detail_opens_next_row_witness :
  ListComponent.byLine wide = 3 /\
  ListComponent.renderLines tiles None wide 5 =
    inr [ListComponent.MosaicAdd; ListComponent.Line 0; ListComponent.Line 1;
         ListComponent.Detail 1;
         ListComponent.Line 2; ListComponent.Line 3; ListComponent.Line 4] /\
  (ListComponent.detailIndex tiles None wide 1 + 1) mod 3 = 0.
Proof.
  split; [reflexivity|]. split; [reflexivity|].
  exact (proj1 (detail_opens_next_row tiles None wide 5 1
                  eq_refl eq_refl eq_refl eq_refl ltac:(lia) ltac:(discriminate))).
Defined.

(** X26: the same tiles in a hidden element. *)
Lemma detail_first_when_no_tile_fits_witness :
  ListComponent.renderLines tiles None hidden 5 =
    inr [ListComponent.MosaicAdd; ListComponent.Detail 1;
         ListComponent.Line 0; ListComponent.Line 1; ListComponent.Line 2;
         ListComponent.Line 3; ListComponent.Line 4].
Proof.
  exact (detail_first_when_no_tile_fits tiles None hidden 5 1
           eq_refl eq_refl eq_refl eq_refl ltac:(lia) eq_refl).
Defined.

(** X27: the panel of the editing form while its save is in flight and
    after the rejection. *)
Lemma panel_busy_while_saving_witness :
  Panel.busy (Panel.render MoreSamples.translate id
                (Panel.getPanelProps (state_of (AutoForm.save editing)))) = true /\
  Panel.busy (Panel.render MoreSamples.translate id
                (Panel.getPanelProps
                   (final (run (rejects email_invalid) id (AutoForm.save editing))))) = false.
Proof.
  destruct (panel_busy_while_saving MoreSamples.translate id editing
              (rejects email_invalid) email_invalid eq_refl eq_refl)
    as (Hduring & _ & Hafter & _).
  exact (conj Hduring Hafter).
Defined.

End MoreExamples.
